(** * Extension widgets and actions of the extensions viewlet

    A shallow embedding of
    [src/vs/workbench/parts/extensions/electron-browser/extensionsWidgets.ts]
    (the file also carries the extension actions): the display widgets, the
    single-extension actions, the combined install/uninstall action, the
    update-all action and the constructor of the sort action, followed by the
    properties established about them. *)

From Stdlib Require Import Bool List String Ascii ZArith QArith Qround Qabs.
From Stdlib Require Import Lia Lqa.
From Stdlib Require Import DecimalString.
Import ListNotations.

Local Open Scope list_scope.
Local Open Scope Z_scope.
Local Open Scope string_scope.

(** ** Data model *)

(** [ExtensionState] of [./extensions]; the enumeration itself is declared
    outside this file, the members are the ones the code compares against. *)
Inductive ExtensionState : Set :=
| Installing
| Installed
| NeedsReload
| Disabled
| Uninstalled.

(** [LocalExtensionType] of the extension management platform. *)
Inductive LocalExtensionType : Set :=
| System
| User.

(** [IExtension]: the fields this file reads.  [type] is [None] when the
    record carries no local type (a TypeScript field may hold [null]); the
    code tells [=== System] apart from [!== User], and so does the model.
    [installCount] and [rating] are [None] for the [null] the widgets test. *)
Record IExtension : Type := {
  identifier : string;
  displayName : string;
  state : ExtensionState;
  type : option LocalExtensionType;
  installCount : option Z;
  rating : option Q;
  ratingCount : Z;
  outdated : bool
}.

Definition ExtensionState_eqb (a b : ExtensionState) : bool :=
  match a, b with
  | Installing, Installing
  | Installed, Installed
  | NeedsReload, NeedsReload
  | Disabled, Disabled
  | Uninstalled, Uninstalled => true
  | _, _ => false
  end.

Definition LocalExtensionType_eqb (a b : LocalExtensionType) : bool :=
  match a, b with
  | System, System | User, User => true
  | _, _ => false
  end.

(** [e.type === k] *)
Definition type_is (e : IExtension) (k : LocalExtensionType) : bool :=
  match type e with
  | Some t => LocalExtensionType_eqb t k
  | None => false
  end.

(** [e.state === s] *)
Definition state_is (e : IExtension) (s : ExtensionState) : bool :=
  ExtensionState_eqb (state e) s.

(** [IExtensionsWorkbenchService]: the collection of local extensions and the
    [canInstall] answer.  The asynchronous operations appear as [Call]s
    below. *)
Record IExtensionsWorkbenchService : Type := {
  local : list IExtension;
  canInstall : IExtension -> bool
}.

(** Modelled from the spec: the [Action] base class ([vs/base/common/actions])
    is not part of this file.  An action is an identifier, a label, a CSS
    class tag (which a constructor may leave [null]) and an enabled flag; the
    setters store the value they are given. *)
Record Action : Type := {
  id : string;
  label : string;
  class : option string;
  enabled : bool
}.

Definition set_enabled (v : bool) (a : Action) : Action :=
  {| id := id a; label := label a; class := class a; enabled := v |}.

Definition set_label (v : string) (a : Action) : Action :=
  {| id := id a; label := v; class := class a; enabled := enabled a |}.

Definition set_class (v : option string) (a : Action) : Action :=
  {| id := id a; label := label a; class := v; enabled := enabled a |}.

(** The displayed state of an action. *)
Definition triple (a : Action) : bool * string * option string :=
  (enabled a, label a, class a).

Definition class_eqb (a b : option string) : bool :=
  match a, b with
  | Some x, Some y => String.eqb x y
  | None, None => true
  | _, _ => false
  end.

(** Modelled from the spec: the setters of the base class fire [onDidChange]
    when the value they store differs from the one held, so a derivation
    notifies the listeners of an action exactly when it changed what the
    action displays. *)
Definition changed (before after : Action) : bool :=
  negb (Bool.eqb (enabled before) (enabled after)
        && String.eqb (label before) (label after)
        && class_eqb (class before) (class after)).

(** ** Effects: calls, promises and what [run] leaves behind *)

(** [localize(key, "... {0} ...", arg)]: the default message with its first
    placeholder filled in. *)
Fixpoint localize (message arg : string) : string :=
  match message with
  | String "{" (String "0" (String "}" rest)) => arg ++ localize rest arg
  | String c rest => String c (localize rest arg)
  | EmptyString => EmptyString
  end.

(** The calls an action makes on its collaborators.  The extension argument
    is what the action holds at that moment, bound or not. *)
Inductive Call : Type :=
| WindowConfirm (message : string)
| ServiceInstall (extension : option IExtension)
    (promptToInstallDependencies : option bool)
| ServiceUninstall (extension : option IExtension)
| ServiceSetEnablement (extension : option IExtension) (enable : bool)
| MessageShow (message : string) (actions : list string).

(** The promise expressions the actions build. *)
#[warnings="-register-all"] Inductive TPromise : Type :=
| TPromise_as_null
| FromCall (c : Call)
| TPromise_then (p : TPromise) (onComplete : list Call)
| TPromise_join (ps : list TPromise).

(** How a [run] ends: with the promise it returns, or with the [TypeError] of
    reading a property of an extension that is not bound. *)
Inductive Completion : Type :=
| Returns (p : TPromise)
| ThrowsTypeError.

(** The calls made while [run] executes, in order, and how it ends. *)
Definition Run : Type := (list Call * Completion)%type.

(** When a promise settles, in turns of the event loop, and whether it was
    fulfilled. *)
Record Settlement : Type := {
  settled_at : nat;
  fulfilled : bool
}.

(** Modelled from the spec: [TPromise] ([vs/base/common/winjs.base]) is not
    part of this file.  A resolved promise is settled from the start; [then]
    settles with the promise it follows; [join] "completes when all finish,
    independently of individual failures": it settles with the last of its
    members, fulfilled when all of them were.  [service] tells when each
    operation of the service settles. *)
Fixpoint settle (service : Call -> Settlement) (p : TPromise) : Settlement :=
  match p with
  | TPromise_as_null => {| settled_at := 0; fulfilled := true |}
  | FromCall c => service c
  | TPromise_then p _ => settle service p
  | TPromise_join ps =>
      {| settled_at :=
           list_max (map (fun p => settled_at (settle service p)) ps);
         fulfilled := forallb (fun p => fulfilled (settle service p)) ps |}
  end.

(** ** Asynchronous chains *)

(** The calls of the remaining actions on their collaborators. *)
Inductive Effect : Type :=
| GetExtensions (includeDisabled : bool)
| Confirm (message : string)
| ReloadWindow
| MessageInfo (message : string)
| ResolveContent (resource : string)
| UpdateContent (resource : string) (content : string)
| OpenEditor (resource : string) (forceOpen pinned : bool).

(** How an asynchronous operation ends. *)
Inductive Outcome (A : Type) : Type :=
| Fulfilled (value : A)
| Rejected (error : string).

Arguments Fulfilled {A} value.
Arguments Rejected {A} error.

(** Modelled from the spec: [TPromise] ([vs/base/common/winjs.base]) is not
    part of this file.  The operations are "asynchronous, non-blocking calls
    returning a future-like completion signal"; a chain is followed to its
    end: the effects it has in order, and how the promise it returns ends.
    A continuation runs when the promise it follows is fulfilled, the error
    handler when it is rejected, and without a handler a rejection passes
    through. *)
Definition Async (A : Type) : Type := (list Effect * Outcome A)%type.

Definition resolved {A : Type} (a : A) : Async A := ([], Fulfilled a).

Definition wrapError {A : Type} (error : string) : Async A :=
  ([], Rejected error).

Definition call {A : Type} (e : Effect) (o : Outcome A) : Async A := ([e], o).

Definition then_else {A B : Type} (p : Async A)
    (onFulfilled : A -> Async B) (onRejected : string -> Async B) : Async B :=
  let (done, o) := p in
  let (more, r) :=
    match o with
    | Fulfilled a => onFulfilled a
    | Rejected error => onRejected error
    end in
  ((done ++ more)%list, r).

Definition then_ {A B : Type} (p : Async A) (onFulfilled : A -> Async B)
    : Async B :=
  then_else p onFulfilled wrapError.

(** [IExtensionsRuntimeService]: the identifiers of the extension
    descriptions [getExtensions] resolves to, and the identifiers
    [getDisabledExtensions] returns, for the workspace only or for all. *)
Record IExtensionsRuntimeService : Type := {
  getExtensions : bool -> Outcome (list string);
  getDisabledExtensions : bool -> list string
}.

(** [IFileService]: how reading and writing a resource end. *)
Record IFileService : Type := {
  resolveContent : string -> Outcome string;
  updateContent : string -> string -> Outcome unit
}.

(** ** Single-extension actions *)

Module InstallAction.

Definition InstallLabel : string := "Install".
Definition InstallingLabel : string := "Installing".
Definition Class : string := "extension-action install".
Definition InstallingClass : string := "extension-action install installing".

Definition update (svc : IExtensionsWorkbenchService)
    (extension : option IExtension) (this : Action) : Action :=
  match extension with
  | None =>
      set_label InstallLabel (set_class (Some Class) (set_enabled false this))
  | Some e =>
      if type_is e System then
        set_label InstallLabel (set_class (Some Class) (set_enabled false this))
      else
        let this :=
          set_enabled (canInstall svc e && state_is e Uninstalled) this in
        if state_is e Installing then
          set_class (Some InstallingClass) (set_label InstallingLabel this)
        else
          set_class (Some Class) (set_label InstallLabel this)
  end.

(** The constructor: [super(...)], then [update()] with nothing bound. *)
Definition new (svc : IExtensionsWorkbenchService) : Action :=
  update svc None
    {| id := "extensions.install"; label := InstallLabel;
       class := Some Class; enabled := false |}.

Definition run (extension : option IExtension) : Run :=
  ([ServiceInstall extension None],
   Returns (FromCall (ServiceInstall extension None))).

End InstallAction.

Module UninstallAction.

Definition update (extension : option IExtension) (this : Action) : Action :=
  match extension with
  | None => set_enabled false this
  | Some e =>
      if negb (type_is e User) then set_enabled false this
      else
        set_enabled
          (state_is e Installed || state_is e Disabled
           || state_is e NeedsReload) this
  end.

Definition new : Action :=
  update None
    {| id := "extensions.uninstall"; label := "Uninstall";
       class := Some "extension-action uninstall"; enabled := false |}.

Definition deleteSure (e : IExtension) : string :=
  localize "Are you sure you want to uninstall '{0}'?" (displayName e).

Definition postUninstallMessage (e : IExtension) : string :=
  localize "{0} was successfully uninstalled. Restart to deactivate it."
    (displayName e).

(** [confirm] is the user's answer to [window.confirm]. *)
Definition run (confirm : string -> bool) (extension : option IExtension)
    : Run :=
  match extension with
  | None => ([], ThrowsTypeError)
  | Some e =>
      if negb (confirm (deleteSure e)) then
        ([WindowConfirm (deleteSure e)], Returns TPromise_as_null)
      else
        ([WindowConfirm (deleteSure e); ServiceUninstall extension],
         Returns
           (TPromise_then (FromCall (ServiceUninstall extension))
              [MessageShow (postUninstallMessage e)
                 ["Restart Now"; "Later"]]))
  end.

End UninstallAction.

Module UpdateAction.

Definition EnabledClass : string := "extension-action update".
Definition DisabledClass : string := EnabledClass ++ " disabled".

Definition update (svc : IExtensionsWorkbenchService)
    (extension : option IExtension) (this : Action) : Action :=
  match extension with
  | None => set_class (Some DisabledClass) (set_enabled false this)
  | Some e =>
      if negb (type_is e User) then
        set_class (Some DisabledClass) (set_enabled false this)
      else
        let canInstall := canInstall svc e in
        let isInstalled := state_is e Installed || state_is e Disabled in
        let this :=
          set_enabled (canInstall && isInstalled && outdated e) this in
        set_class
          (Some (if enabled this then EnabledClass else DisabledClass)) this
  end.

Definition new (svc : IExtensionsWorkbenchService) : Action :=
  update svc None
    {| id := "extensions.update"; label := "Update";
       class := Some DisabledClass; enabled := false |}.

Definition run (extension : option IExtension) : Run :=
  ([ServiceInstall extension None],
   Returns (FromCall (ServiceInstall extension None))).

End UpdateAction.

Module EnableAction.

Definition EnabledClass : string := "extension-action enable".
Definition DisabledClass : string := EnabledClass ++ " disabled".

Definition update (extension : option IExtension) (this : Action) : Action :=
  match extension with
  | None => set_class (Some DisabledClass) (set_enabled false this)
  | Some e =>
      let this := set_enabled (state_is e Disabled) this in
      set_class
        (Some (if enabled this then EnabledClass else DisabledClass)) this
  end.

Definition new : Action :=
  update None
    {| id := "extensions.enable"; label := "Enable";
       class := Some DisabledClass; enabled := false |}.

Definition run (extension : option IExtension) : Run :=
  ([ServiceSetEnablement extension true],
   Returns (FromCall (ServiceSetEnablement extension true))).

End EnableAction.

Module DisableAction.

Definition EnabledClass : string := "extension-action disable".
Definition DisabledClass : string := EnabledClass ++ " disabled".

Definition update (extension : option IExtension) (this : Action) : Action :=
  match extension with
  | None => set_class (Some DisabledClass) (set_enabled false this)
  | Some e =>
      let this := set_enabled (state_is e Installed) this in
      set_class
        (Some (if enabled this then EnabledClass else DisabledClass)) this
  end.

Definition new : Action :=
  update None
    {| id := "extensions.disable"; label := "Disable";
       class := Some DisabledClass; enabled := false |}.

Definition run (extension : option IExtension) : Run :=
  ([ServiceSetEnablement extension false],
   Returns (FromCall (ServiceSetEnablement extension false))).

End DisableAction.

Module ReloadAction.

Definition EnabledClass : string := "extension-action reload".
Definition DisabledClass : string := EnabledClass ++ " disabled".

Definition update (extension : option IExtension) (this : Action) : Action :=
  match extension with
  | None => set_class (Some DisabledClass) (set_enabled false this)
  | Some e =>
      let this := set_enabled (state_is e NeedsReload) this in
      set_class
        (Some (if enabled this then EnabledClass else DisabledClass)) this
  end.

Definition new : Action :=
  update None
    {| id := "extensions.reload"; label := "Reload";
       class := Some DisabledClass; enabled := false |}.

Definition postEnableMessage (e : IExtension) : string :=
  localize
    "In order to enable '{0}' extension, this window of VS Code needs to be restarted."
    (displayName e).

Definition postDisableMessage (e : IExtension) : string :=
  localize
    "In order to disable '{0}' extension, this window of VS Code needs to be restarted."
    (displayName e).

(** Reading a property of an extension that is not bound throws inside the
    continuation, which rejects the promise. *)
Definition getReloadMessage (rt : IExtensionsRuntimeService)
    (extension : option IExtension) : Async string :=
  then_ (call (GetExtensions true) (getExtensions rt true))
    (fun extensionDescriptions =>
       match extension with
       | None => wrapError "TypeError"
       | Some e =>
           let disabled :=
             existsb (String.eqb (identifier e))
               (getDisabledExtensions rt false) in
           let installed :=
             negb (forallb (fun id => negb (String.eqb id (identifier e)))
                     extensionDescriptions) in
           if disabled || negb installed then resolved (postEnableMessage e)
           else resolved (postDisableMessage e)
       end).

Definition run (rt : IExtensionsRuntimeService) (confirm : string -> bool)
    (extension : option IExtension) : Async unit :=
  then_ (getReloadMessage rt extension)
    (fun message =>
       if confirm message then ([Confirm message; ReloadWindow], Fulfilled tt)
       else ([Confirm message], Fulfilled tt)).

End ReloadAction.

(** ** The combined install/uninstall action *)

Module CombinedInstallAction.

Definition NoExtensionClass : string :=
  "extension-action install no-extension".

Definition update (extension : option IExtension)
    (installAction uninstallAction this : Action) : Action :=
  match extension with
  | None => set_class (Some NoExtensionClass) (set_enabled false this)
  | Some e =>
      if type_is e System then
        set_class (Some NoExtensionClass) (set_enabled false this)
      else if enabled installAction then
        set_class (class installAction)
          (set_label (label installAction) (set_enabled true this))
      else if enabled uninstallAction then
        set_class (class uninstallAction)
          (set_label (label uninstallAction) (set_enabled true this))
      else if state_is e Installing then
        set_class (class installAction)
          (set_label (label installAction) (set_enabled false this))
      else
        set_class (class installAction)
          (set_label (label installAction) (set_enabled false this))
  end.

Definition run (confirm : string -> bool) (extension : option IExtension)
    (installAction uninstallAction : Action) : Run :=
  if enabled installAction then InstallAction.run extension
  else if enabled uninstallAction then
    UninstallAction.run confirm extension
  else ([], Returns TPromise_as_null).

(** The composite with the two children it owns. *)
Record t : Type := {
  self : Action;
  installAction : Action;
  uninstallAction : Action;
  extension : option IExtension
}.

Definition new (svc : IExtensionsWorkbenchService) : t :=
  let installAction := InstallAction.new svc in
  let uninstallAction := UninstallAction.new in
  {| self :=
       update None installAction uninstallAction
         {| id := "extensions.combinedInstall"; label := "";
            class := Some ""; enabled := false |};
     installAction := installAction;
     uninstallAction := uninstallAction;
     extension := None |}.

(** The setter binds the composite, then each child in turn; a child that
    changed notifies the composite, which derives its state again.  A
    change of the service reaches the children the same way, with the
    snapshot they hold. *)
Definition set_extension (svc : IExtensionsWorkbenchService)
    (e : option IExtension) (c : t) : t :=
  let ia := InstallAction.update svc e (installAction c) in
  let self1 :=
    if changed (installAction c) ia
    then update e ia (uninstallAction c) (self c) else self c in
  let ua := UninstallAction.update e (uninstallAction c) in
  let self2 :=
    if changed (uninstallAction c) ua
    then update e ia ua self1 else self1 in
  {| self := self2; installAction := ia; uninstallAction := ua;
     extension := e |}.

(** The composites the code can build: a new one, bound and bound again. *)
Inductive reachable (svc : IExtensionsWorkbenchService) : t -> Prop :=
| reachable_new : reachable svc (new svc)
| reachable_set (e : option IExtension) (c : t) :
    reachable svc c -> reachable svc (set_extension svc e c).

End CombinedInstallAction.

(** ** The update-all action *)

Module UpdateAllAction.

Definition ID : string := "workbench.extensions.action.updateAllExtensions".
Definition LABEL : string := "Update All Extensions".

Definition outdated (svc : IExtensionsWorkbenchService) : list IExtension :=
  filter
    (fun e =>
       canInstall svc e
       && type_is e User
       && (state_is e Installed || state_is e Disabled)
       && outdated e)
    (local svc).

Definition update (svc : IExtensionsWorkbenchService) (this : Action)
    : Action :=
  set_enabled (Nat.ltb 0 (List.length (outdated svc))) this.

Definition new (svc : IExtensionsWorkbenchService) : Action :=
  update svc {| id := ID; label := LABEL; class := Some ""; enabled := false |}.

(** [promptToInstallDependencies] defaults to [true] when left out. *)
Definition run (svc : IExtensionsWorkbenchService)
    (promptToInstallDependencies : option bool) : Run :=
  let promptToInstallDependencies :=
    match promptToInstallDependencies with
    | Some b => b
    | None => true
    end in
  let installs :=
    map (fun e => ServiceInstall (Some e) (Some promptToInstallDependencies))
      (outdated svc) in
  (installs, Returns (TPromise_join (map FromCall installs))).

End UpdateAllAction.

(** ** Display widgets *)

(** [String(n)] for an integer: its decimal digits, which is what JavaScript
    prints for an integer-valued number below 10^21 in magnitude (from there
    on it switches to the exponent notation, which this does not follow). *)
Definition String_of_Z (n : Z) : string :=
  NilZero.string_of_int (Z.to_int n).

(** [Math.round]: the nearest integer, a tie going up. *)
Definition Math_round (x : Q) : Z := Qfloor (x + (1 # 2))%Q.

(** A [null] number in arithmetic counts as zero. *)
Definition ToNumber (x : option Q) : Q :=
  match x with
  | Some q => q
  | None => 0%Q
  end.

(** [String(h / 2)] for an integer [h]: the number of halves printed as a
    decimal, within the same range as [String_of_Z]. *)
Definition String_of_halves (h : Z) : string :=
  if Z.even h then String_of_Z (h / 2)
  else (if (h <? 0)%Z then "-" else "") ++ String_of_Z (Z.abs h / 2) ++ ".5".

(** An element built by [$], with what the widgets set on it afterwards. *)
Record HTMLElement : Type := {
  selector : string;
  toggled : list string;
  title : string;
  textContent : string
}.

Definition dollar (selector : string) : HTMLElement :=
  {| selector := selector; toggled := []; title := ""; textContent := "" |}.

Definition set_textContent (text : string) (el : HTMLElement) : HTMLElement :=
  {| selector := selector el; toggled := toggled el; title := title el;
     textContent := text |}.

Definition set_title (text : string) (el : HTMLElement) : HTMLElement :=
  {| selector := selector el; toggled := toggled el; title := text;
     textContent := textContent el |}.

Definition toggleClass (name : string) (on : bool) (el : HTMLElement)
    : HTMLElement :=
  {| selector := selector el;
     toggled := if on then (toggled el ++ [name])%list else toggled el;
     title := title el; textContent := textContent el |}.

(** A container is the list of its children; [append] adds one at the end. *)
Definition append (container : list HTMLElement) (child : HTMLElement)
    : list HTMLElement :=
  (container ++ [child])%list.

(** The widgets' options: [small] unset counts as [false]. *)
Record IOptions : Type := { small : bool }.

Module Label.

Definition render (fn : IExtension -> string) (extension : option IExtension)
    : string :=
  match extension with
  | Some e => fn e
  | None => ""
  end.

End Label.

Module StatusWidget.

(** [disabledInWorkspace] is the answer of the runtime service,
    [getDisabledExtensions(true)]. *)
Definition render (disabledInWorkspace : list string)
    (extension : option IExtension) (container : list HTMLElement)
    : list HTMLElement :=
  let container : list HTMLElement := [] in
  match extension with
  | None => container
  | Some e =>
      let installed := state_is e Installed in
      let disabled := state_is e Disabled in
      let disabledInWorkspace :=
        existsb (String.eqb (identifier e)) disabledInWorkspace in
      let status := dollar "span.extension-status" in
      let status := toggleClass "disabled" disabled status in
      let status := toggleClass "active" installed status in
      let status :=
        set_title
          (if disabledInWorkspace then "Disabled (Workspace)"
           else if disabled then "Disabled"
           else if installed then "Enabled" else "") status in
      append container status
  end.

End StatusWidget.

Module InstallWidget.

Definition render (options : IOptions) (extension : option IExtension)
    (container : list HTMLElement) : list HTMLElement :=
  let container : list HTMLElement := [] in
  match extension with
  | None => container
  | Some e =>
      match installCount e with
      | None => container
      | Some installCount =>
          let installLabel : option string :=
            if small options then
              if (installCount >? 1000000)%Z then
                Some (String_of_Z (installCount / 1000000) ++ "M")
              else if (installCount >? 1000)%Z then
                Some (String_of_Z (installCount / 1000) ++ "K")
              else None
            else None in
          let container :=
            append container (dollar "span.octicon.octicon-cloud-download") in
          let count := dollar "span.count" in
          let count :=
            set_textContent
              (match installLabel with
               | Some l => l
               | None => String_of_Z installCount
               end) count in
          append container count
      end
  end.

End InstallWidget.

Module RatingsWidget.

(** One turn of the loop over the five stars. *)
Definition star (rating : Q) (container : list HTMLElement) (i : Z)
    : list HTMLElement :=
  if Qle_bool (inject_Z i) rating then
    append container (dollar "span.full.star")
  else if Qle_bool (inject_Z i - (1 # 2)) rating then
    append container (dollar "span.half.star")
  else
    append container (dollar "span.empty.star").

Definition render (options : IOptions) (extension : option IExtension)
    (container : list HTMLElement) : list HTMLElement :=
  let container : list HTMLElement := [] in
  match extension with
  | None => container
  | Some e =>
      let doubled := Math_round (ToNumber (rating e) * 2) in
      let rating_ : Q := (inject_Z doubled / 2)%Q in
      match rating e with
      | None => container
      | Some _ =>
          if small options && (ratingCount e =? 0)%Z then container
          else if small options then
            let container := append container (dollar "span.full.star") in
            let count := dollar "span.count" in
            let count := set_textContent (String_of_halves doubled) count in
            append container count
          else
            fold_left (star rating_) [1; 2; 3; 4; 5] container
      end
  end.

End RatingsWidget.

(** ** The sort action *)

(** A string argument as JavaScript passes it: left out, [null], or given. *)
Inductive JsString : Type :=
| undefined
| null
| str (s : string).

(** JavaScript truthiness of a string argument, and [a || b]. *)
Definition truthy (s : JsString) : bool :=
  match s with
  | str s => negb (String.eqb s "")
  | _ => false
  end.

Definition or_else (a b : JsString) : JsString :=
  if truthy a then a else b.

Module ChangeSortAction.

Section WithQuery.

(** The query grammar ([../common/extensionQuery]) stays a parameter: the
    constructor only parses the empty query. *)
Variable Query : Type.
Variable Query_parse : string -> Query.

Record t : Type := {
  base : Action;
  query : Query;
  sortBy : JsString;
  sortOrder : JsString
}.

(** A constructor gives the new object or throws. *)
Inductive Constructed : Type :=
| Built (this : t)
| ThrowsError (message : string).

(** [super(id, label, null, true)], the check of the arguments, then the
    empty query and [enabled = false]; the subscription to the search
    box that follows changes nothing of the new object. *)
Definition new (id label : string) (sortBy sortOrder : JsString)
    : Constructed :=
  let this :=
    {| id := id; label := label; class := None; enabled := true |} in
  match sortBy, sortOrder with
  | undefined, undefined => ThrowsError "bad arguments"
  | _, _ =>
      Built {| base := set_enabled false this;
               query := Query_parse "";
               sortBy := sortBy;
               sortOrder := sortOrder |}
  end.

(** The rest of the query class, as far as [onSearchChange] uses it. *)
Variable Query_new : string -> JsString -> JsString -> Query.
Variable Query_value : Query -> string.
Variable Query_sortBy : Query -> JsString.
Variable Query_sortOrder : Query -> JsString.
Variable Query_isValid : Query -> bool.
Variable Query_equals : Query -> Query -> bool.

(** [enabled] takes [value && ...]: an empty search text is falsy. *)
Definition onSearchChange (value : string) (this : t) : t :=
  let query := Query_parse value in
  let query' :=
    Query_new (Query_value query)
      (or_else (sortBy this) (Query_sortBy query))
      (or_else (sortOrder this) (Query_sortOrder query)) in
  {| base :=
       set_enabled
         (negb (String.eqb value "") && Query_isValid query'
          && negb (Query_equals query' query)) (base this);
     query := query';
     sortBy := sortBy this;
     sortOrder := sortOrder this |}.

End WithQuery.

Arguments Built {Query} this.
Arguments ThrowsError {Query} message.

End ChangeSortAction.

(** ** The workspace recommendations file *)

Module ConfigureWorkspaceRecommendedExtensionsAction.

Section WithFiles.

(** The resource of the recommendations file of a workspace folder,
    [URI.file(paths.join(fsPath, '.vscode', ConfigurationKey + '.json'))],
    and the template written into a new one; both come from other files. *)
Variable extensionsFile : string -> string.
Variable ExtensionsConfigurationInitialContent : string.

Record Located : Type := {
  created : bool;
  extensionsFileResource : string
}.

(** [super(id, label, null, !!contextService.getWorkspace())] *)
Definition new (id label : string) (workspace : option string) : Action :=
  {| id := id; label := label; class := None;
     enabled := match workspace with Some _ => true | None => false end |}.

Definition getOrCreateExtensionsFile (fileService : IFileService)
    (workspace : string) : Async Located :=
  let extensionsFileResource := extensionsFile workspace in
  then_else
    (call (ResolveContent extensionsFileResource)
       (resolveContent fileService extensionsFileResource))
    (fun content =>
       resolved {| created := false;
                   extensionsFileResource := extensionsFileResource |})
    (fun err =>
       then_
         (call
            (UpdateContent extensionsFileResource
               ExtensionsConfigurationInitialContent)
            (updateContent fileService extensionsFileResource
               ExtensionsConfigurationInitialContent))
         (fun _ =>
            resolved {| created := true;
                        extensionsFileResource := extensionsFileResource |})).

(** [openEditor] is how the editor service's call ends. *)
Definition openExtensionsFile (fileService : IFileService)
    (openEditor : Outcome unit) (workspace : option string) : Async unit :=
  match workspace with
  | None =>
      ([MessageInfo
          "Recommendations are only available on a workspace folder."],
       Fulfilled tt)
  | Some folder =>
      then_else (getOrCreateExtensionsFile fileService folder)
        (fun value =>
           call (OpenEditor (extensionsFileResource value) true (created value))
             openEditor)
        (fun error =>
           wrapError
             (localize
                "Unable to create 'extensions.json' file inside the '.vscode' folder ({0})."
                error))
  end.

Definition run (fileService : IFileService) (openEditor : Outcome unit)
    (workspace : option string) : Async unit :=
  openExtensionsFile fileService openEditor workspace.

End WithFiles.

End ConfigureWorkspaceRecommendedExtensionsAction.

(** ** Sample records *)

(** A service that lets everything be installed and tracks nothing. *)
Definition permissive : IExtensionsWorkbenchService :=
  {| local := []; canInstall := fun _ => true |}.

(** An installed, outdated user extension with a rating of 4.3. *)
Definition theme : IExtension :=
  {| identifier := "pub.theme"; displayName := "Theme"; state := Installed;
     type := Some User; installCount := Some 2500000;
     rating := Some (43 # 10)%Q; ratingCount := 12; outdated := true |}.

(** The same record with the rating held as the binary64 number nearest to
    4.3, which is 4841369599423283 / 2^50. *)
Definition theme_binary64 : IExtension :=
  {| identifier := "pub.theme"; displayName := "Theme"; state := Installed;
     type := Some User; installCount := Some 2500000;
     rating := Some (4841369599423283 # 1125899906842624)%Q;
     ratingCount := 12; outdated := true |}.

(** An installed, outdated extension that ships with the product. *)
Definition builtin : IExtension :=
  {| identifier := "vscode.git"; displayName := "Git"; state := Installed;
     type := Some System; installCount := None;
     rating := None; ratingCount := 0; outdated := true |}.

(** A record of the system type that is not installed. *)
Definition builtin_removed : IExtension :=
  {| identifier := "vscode.git"; displayName := "Git"; state := Uninstalled;
     type := Some System; installCount := None;
     rating := None; ratingCount := 0; outdated := false |}.

(** A gallery entry: not installed, no local type. *)
Definition gallery_entry : IExtension :=
  {| identifier := "pub.linter"; displayName := "Linter";
     state := Uninstalled; type := None; installCount := Some 15000;
     rating := Some (7 # 2)%Q; ratingCount := 3; outdated := false |}.

(** What the spec calls a candidate of the update-all action. *)
Definition update_candidate (svc : IExtensionsWorkbenchService)
    (e : IExtension) : Prop :=
  type e = Some User
  /\ canInstall svc e = true
  /\ (state e = Installed \/ state e = Disabled)
  /\ outdated e = true.

(** The children of the combined action, in their priority order, and the
    first of them that is enabled. *)
Inductive Child : Set :=
| InstallChild
| UninstallChild.

Definition first_enabled (installAction uninstallAction : Action)
    : option (Child * Action) :=
  find (fun child => enabled (snd child))
    [(InstallChild, installAction); (UninstallChild, uninstallAction)].

Definition child_run (confirm : string -> bool)
    (extension : option IExtension) (child : Child) : Run :=
  match child with
  | InstallChild => InstallAction.run extension
  | UninstallChild => UninstallAction.run confirm extension
  end.

(** The combined action shows its first enabled child, and is disabled when
    there is none. *)
Definition shows_first_enabled (installAction uninstallAction this : Action)
    : Prop :=
  match first_enabled installAction uninstallAction with
  | Some (_, child) => triple this = triple child
  | None => enabled this = false
  end.

(** A child that is enabled was derived from a bound extension the combined
    action does not treat as missing. *)
Definition children_fit (e : option IExtension) (ia ua : Action) : Prop :=
  (enabled ia = true \/ enabled ua = true) ->
  exists x, e = Some x /\ type_is x System = false.

(** ** Derivations as functions of their inputs *)

(** A derivation takes the service, the bound extension and the action as it
    stands, and gives the action as it stands afterwards. *)
Definition Derivation : Type :=
  IExtensionsWorkbenchService -> option IExtension -> Action -> Action.

(** The states an action goes through: built by its constructor, then
    derived again and again, the service and the bound record changing in
    between. *)
Inductive derived (new : IExtensionsWorkbenchService -> Action)
    (update : Derivation) : Action -> Prop :=
| derived_new (svc : IExtensionsWorkbenchService) :
    derived new update (new svc)
| derived_update (svc : IExtensionsWorkbenchService)
    (e : option IExtension) (a : Action) :
    derived new update a -> derived new update (update svc e a).

(** What the spec lets a derivation depend on: whether a record is bound, its
    state, type and outdated flag, and the [canInstall] answer. *)
Definition inputs (svc : IExtensionsWorkbenchService)
    (extension : option IExtension)
    : option (ExtensionState * option LocalExtensionType * bool * bool) :=
  option_map (fun e => (state e, type e, outdated e, canInstall svc e))
    extension.

(** The displayed triple depends on the inputs alone. *)
Definition pure_derivation (new : IExtensionsWorkbenchService -> Action)
    (update : Derivation) : Prop :=
  forall svc1 svc2 x1 x2 a1 a2,
    derived new update a1 -> derived new update a2 ->
    inputs svc1 x1 = inputs svc2 x2 ->
    triple (update svc1 x1 a1) = triple (update svc2 x2 a2).

(** Deriving again from the same inputs changes nothing. *)
Definition settled_derivation (update : Derivation) : Prop :=
  forall svc x a, update svc x (update svc x a) = update svc x a.

(** The six single-extension actions, each with its constructor. *)
Definition single_extension_actions
    : list ((IExtensionsWorkbenchService -> Action) * Derivation) :=
  [ (InstallAction.new, InstallAction.update);
    (fun _ => UninstallAction.new, fun _ => UninstallAction.update);
    (UpdateAction.new, UpdateAction.update);
    (fun _ => EnableAction.new, fun _ => EnableAction.update);
    (fun _ => DisableAction.new, fun _ => DisableAction.update);
    (fun _ => ReloadAction.new, fun _ => ReloadAction.update) ].

(** A query class to try the sort action on: the search text with its two
    sort fields, parsed without any, compared field by field. *)
Definition JsString_eqb (a b : JsString) : bool :=
  match a, b with
  | undefined, undefined | null, null => true
  | str x, str y => String.eqb x y
  | _, _ => false
  end.

Definition SampleQuery : Type := (string * JsString * JsString)%type.

Definition SampleQuery_parse (value : string) : SampleQuery :=
  (value, undefined, undefined).

Definition SampleQuery_new (value : string) (sortBy sortOrder : JsString)
    : SampleQuery :=
  (value, sortBy, sortOrder).

Definition SampleQuery_equals (a b : SampleQuery) : bool :=
  String.eqb (fst (fst a)) (fst (fst b))
  && JsString_eqb (snd (fst a)) (snd (fst b))
  && JsString_eqb (snd a) (snd b).

(** A running window with the sample extension active and nothing
    disabled. *)
Definition running : IExtensionsRuntimeService :=
  {| getExtensions := fun _ => Fulfilled ["pub.theme"];
     getDisabledExtensions := fun _ => [] |}.

(** A folder without a recommendations file, and one that has it. *)
Definition without_file : IFileService :=
  {| resolveContent := fun _ => Rejected "ENOENT";
     updateContent := fun _ _ => Fulfilled tt |}.

Definition with_file : IFileService :=
  {| resolveContent := fun _ => Fulfilled "{}";
     updateContent := fun _ _ => Fulfilled tt |}.

(** An Uninstall action as derived from the sample extension. *)
Definition uninstall_theme : Action :=
  UninstallAction.update (Some theme) UninstallAction.new.

(** * Properties *)

(** ** Comparisons *)

Lemma state_is_true (e : IExtension) (s : ExtensionState) :
  state_is e s = true <-> state e = s.
Proof.
  unfold state_is; destruct (state e), s; simpl; split; congruence.
Qed.

Lemma type_is_true (e : IExtension) (k : LocalExtensionType) :
  type_is e k = true <-> type e = Some k.
Proof.
  unfold type_is; destruct (type e) as [[]|], k; simpl; split; congruence.
Qed.

Lemma type_is_false (e : IExtension) (k : LocalExtensionType) :
  type_is e k = false <-> type e <> Some k.
Proof.
  rewrite <- type_is_true; destruct (type_is e k); split; congruence.
Qed.

(** ** The decision tables of the single-extension actions *)

(** C1, as the code has it: the Update action is enabled exactly when the
    bound extension is of the user type, the service can install it, its
    state is Installed or Disabled, and it is outdated. *)
Theorem UpdateAction_enabled_iff :
  forall (svc : IExtensionsWorkbenchService) (e : IExtension) (this : Action),
    enabled (UpdateAction.update svc (Some e) this) = true <->
    type e = Some User
    /\ canInstall svc e = true
    /\ (state e = Installed \/ state e = Disabled)
    /\ outdated e = true.
Proof.
  intros svc e this; unfold UpdateAction.update.
  rewrite <- (type_is_true e User), <- !state_is_true.
  destruct (type_is e User); simpl.
  - rewrite !andb_true_iff, orb_true_iff; tauto.
  - split; [discriminate | intros [H _]; discriminate H].
Qed.

(** C1, the claim without the type: a built-in extension that is installable,
    installed and outdated leaves the Update action disabled. *)
Lemma UpdateAction_enabled_ignoring_type_fails :
  ~ (enabled (UpdateAction.update permissive (Some builtin)
                (UpdateAction.new permissive)) = true <->
     canInstall permissive builtin = true
     /\ (state builtin = Installed \/ state builtin = Disabled)
     /\ outdated builtin = true).
Proof.
  intros [_ H].
  assert (E : enabled (UpdateAction.update permissive (Some builtin)
                         (UpdateAction.new permissive)) = true).
  { apply H; repeat split; left; reflexivity. }
  discriminate E.
Qed.

(** C2, as the code has it: the Install action is enabled exactly when the
    bound extension is not of the system type, the service can install it
    and its state is Uninstalled. *)
Theorem InstallAction_enabled_iff :
  forall (svc : IExtensionsWorkbenchService) (e : IExtension) (this : Action),
    enabled (InstallAction.update svc (Some e) this) = true <->
    type e <> Some System
    /\ canInstall svc e = true
    /\ state e = Uninstalled.
Proof.
  intros svc e this; unfold InstallAction.update.
  rewrite <- (type_is_false e System), <- state_is_true.
  destruct (type_is e System); simpl.
  - split; [discriminate | intros [H _]; discriminate H].
  - destruct (state_is e Installing); simpl;
      rewrite andb_true_iff; tauto.
Qed.

(** C2, the claim without the type: a record of the system type that is
    installable and not installed leaves the Install action disabled. *)
Lemma InstallAction_enabled_ignoring_type_fails :
  ~ (enabled (InstallAction.update permissive (Some builtin_removed)
                (InstallAction.new permissive)) = true <->
     canInstall permissive builtin_removed = true
     /\ state builtin_removed = Uninstalled).
Proof.
  intros [_ H].
  assert (E : enabled (InstallAction.update permissive (Some builtin_removed)
                         (InstallAction.new permissive)) = true).
  { apply H; split; reflexivity. }
  discriminate E.
Qed.

(** C10: with no extension bound, the derivation of each single-extension
    action leaves it disabled, whatever it displayed before. *)
Theorem unbound_action_is_disabled :
  forall (svc : IExtensionsWorkbenchService) (this : Action),
    enabled (InstallAction.update svc None this) = false
    /\ enabled (UninstallAction.update None this) = false
    /\ enabled (UpdateAction.update svc None this) = false
    /\ enabled (EnableAction.update None this) = false
    /\ enabled (DisableAction.update None this) = false
    /\ enabled (ReloadAction.update None this) = false.
Proof.
  intros svc this; repeat split.
Qed.

(** ** The update-all action *)

Lemma UpdateAllAction_outdated_In (svc : IExtensionsWorkbenchService)
    (e : IExtension) :
  In e (UpdateAllAction.outdated svc) <->
  In e (local svc) /\ update_candidate svc e.
Proof.
  unfold UpdateAllAction.outdated, update_candidate.
  rewrite filter_In, !andb_true_iff, orb_true_iff, type_is_true,
    !state_is_true.
  tauto.
Qed.

Lemma nonempty_iff_member {A : Type} (l : list A) :
  Nat.ltb 0 (List.length l) = true <-> exists x, In x l.
Proof.
  destruct l as [|x l]; simpl.
  - split; [discriminate | intros [x []]].
  - split; [exists x; now left | reflexivity].
Qed.

Lemma settle_join_calls (service : Call -> Settlement) (calls : list Call) :
  settled_at (settle service (TPromise_join (map FromCall calls))) =
  list_max (map (fun c => settled_at (service c)) calls).
Proof.
  simpl; rewrite map_map; reflexivity.
Qed.

(** C3: the update-all action is enabled exactly when the local collection
    holds a candidate (user type, installable, Installed or Disabled,
    outdated); running it asks the service for one install per candidate, in
    the order of the collection: the requests are the installs of the local
    collection filtered by any test that decides candidacy, entry by entry,
    no more and no fewer; it returns the join of those installs, which
    settles with the last of them whatever their outcomes are. *)
Theorem UpdateAllAction_enabled_and_run :
  forall (svc : IExtensionsWorkbenchService) (this : Action)
         (promptToInstallDependencies : option bool)
         (service : Call -> Settlement),
    let prompt :=
      match promptToInstallDependencies with Some b => b | None => true end in
    let request := fun e => ServiceInstall (Some e) (Some prompt) in
    let candidates := UpdateAllAction.outdated svc in
    let ran := UpdateAllAction.run svc promptToInstallDependencies in
    (enabled (UpdateAllAction.update svc this) = true <->
     exists e, In e (local svc) /\ update_candidate svc e)
    /\ (forall e, In e candidates <-> In e (local svc) /\ update_candidate svc e)
    /\ fst ran = map request candidates
    /\ (forall decide : IExtension -> bool,
          (forall e, decide e = true <-> update_candidate svc e) ->
          candidates = filter decide (local svc)
          /\ fst ran = map request (filter decide (local svc)))
    /\ exists promise,
         snd ran = Returns promise
         /\ promise = TPromise_join (map (fun e => FromCall (request e)) candidates)
         /\ settled_at (settle service promise) =
            list_max (map (fun e => settled_at (service (request e))) candidates)
         /\ (forall e, In e candidates ->
               (settled_at (service (request e))
                <= settled_at (settle service promise))%nat)
         /\ (forall service' : Call -> Settlement,
               (forall c, settled_at (service' c) = settled_at (service c)) ->
               settled_at (settle service' promise)
               = settled_at (settle service promise)).
Proof.
  intros svc this p service prompt request candidates ran.
  assert (Hsettle : forall srv,
             settled_at (settle srv (TPromise_join (map FromCall (map request candidates))))
             = list_max (map (fun e => settled_at (srv (request e))) candidates)).
  { intros srv; rewrite settle_join_calls, map_map; reflexivity. }
  split; [| split; [| split; [| split]]].
  - unfold UpdateAllAction.update; simpl.
    rewrite nonempty_iff_member.
    split; intros [e He]; exists e; now apply UpdateAllAction_outdated_In.
  - intros e; apply UpdateAllAction_outdated_In.
  - reflexivity.
  - intros decide Hdecide.
    assert (E : candidates = filter decide (local svc)).
    { unfold candidates, UpdateAllAction.outdated.
      apply filter_ext; intros e; apply eq_true_iff_eq.
      rewrite Hdecide; unfold update_candidate.
      rewrite !andb_true_iff, orb_true_iff, type_is_true, !state_is_true.
      tauto. }
    split; [exact E |].
    unfold ran, UpdateAllAction.run; simpl.
    fold candidates; now rewrite E.
  - exists (TPromise_join (map FromCall (map request candidates))).
    split; [reflexivity |].
    split; [now rewrite map_map |].
    split; [apply Hsettle |].
    split.
    + intros e He; rewrite Hsettle.
      assert (F := proj1 (list_max_le
                  (map (fun e => settled_at (service (request e))) candidates)
                  _) (Nat.le_refl _)).
      rewrite Forall_forall in F; apply F.
      apply in_map_iff; exists e; split; [reflexivity | exact He].
    + intros service' Hsame; rewrite !Hsettle.
      f_equal; apply map_ext; intros e; apply Hsame.
Qed.

(** ** The combined install/uninstall action *)

Lemma changed_false (before after : Action) :
  changed before after = false -> triple before = triple after.
Proof.
  unfold changed, triple; intros H.
  apply negb_false_iff in H.
  apply andb_true_iff in H as [H Hc].
  apply andb_true_iff in H as [He Hl].
  apply Bool.eqb_prop in He; apply String.eqb_eq in Hl.
  assert (class before = class after) as ->.
  { destruct (class before), (class after); simpl in Hc;
      try discriminate; [apply String.eqb_eq in Hc; now subst | reflexivity]. }
  now rewrite He, Hl.
Qed.

Lemma changed_same (a : Action) : changed a a = false.
Proof.
  unfold changed.
  rewrite Bool.eqb_reflx, String.eqb_refl.
  destruct (class a); simpl; [now rewrite String.eqb_refl | reflexivity].
Qed.

Lemma shows_first_enabled_triples (ia ua ia' ua' this : Action) :
  triple ia = triple ia' -> triple ua = triple ua' ->
  shows_first_enabled ia ua this -> shows_first_enabled ia' ua' this.
Proof.
  unfold shows_first_enabled, first_enabled; simpl.
  intros Hi Hu.
  assert (Ei : enabled ia = enabled ia') by (unfold triple in Hi; congruence).
  assert (Eu : enabled ua = enabled ua') by (unfold triple in Hu; congruence).
  rewrite <- Ei, <- Eu.
  destruct (enabled ia); [| destruct (enabled ua)]; congruence.
Qed.

Lemma children_fit_derived (svc : IExtensionsWorkbenchService)
    (e : option IExtension) (ia0 ua0 : Action) :
  children_fit e (InstallAction.update svc e ia0)
    (UninstallAction.update e ua0).
Proof.
  unfold children_fit, InstallAction.update, UninstallAction.update, type_is.
  destruct e as [x|]; simpl; [| intros [H|H]; discriminate H].
  destruct (type x) as [[]|] eqn:T; simpl; intros [H|H];
    try discriminate H; exists x; rewrite T; split; reflexivity.
Qed.

Lemma update_shows_first_enabled (e : option IExtension)
    (ia ua this : Action) :
  children_fit e ia ua ->
  shows_first_enabled ia ua (CombinedInstallAction.update e ia ua this).
Proof.
  unfold children_fit, shows_first_enabled, first_enabled,
    CombinedInstallAction.update; simpl; intros Hfit.
  destruct (enabled ia) eqn:Ei; [| destruct (enabled ua) eqn:Eu].
  - destruct Hfit as (x & -> & ->); [now left |].
    unfold triple; simpl; now rewrite Ei.
  - destruct Hfit as (x & -> & ->); [now right |].
    unfold triple; simpl; now rewrite Eu.
  - destruct e as [x|]; [| reflexivity].
    destruct (type_is x System); [reflexivity |].
    destruct (state_is x Installing); reflexivity.
Qed.

(** The displayed state of every combined action the code can build agrees
    with its children. *)
Lemma CombinedInstallAction_reachable_shows (svc : IExtensionsWorkbenchService)
    (c : CombinedInstallAction.t) :
  CombinedInstallAction.reachable svc c ->
  children_fit (CombinedInstallAction.extension c)
    (CombinedInstallAction.installAction c)
    (CombinedInstallAction.uninstallAction c)
  /\ shows_first_enabled (CombinedInstallAction.installAction c)
       (CombinedInstallAction.uninstallAction c)
       (CombinedInstallAction.self c).
Proof.
  induction 1 as [|e c R [_ IH]].
  - split; [intros [H|H]; discriminate H | reflexivity].
  - split; [apply children_fit_derived |].
    unfold CombinedInstallAction.set_extension; simpl.
    set (ia := InstallAction.update svc e _).
    set (ua := UninstallAction.update e _).
    assert (F : children_fit e ia ua) by apply children_fit_derived.
    destruct (changed (CombinedInstallAction.uninstallAction c) ua) eqn:Cu.
    + now apply update_shows_first_enabled.
    + apply changed_false in Cu.
      destruct (changed (CombinedInstallAction.installAction c) ia) eqn:Ci.
      * apply shows_first_enabled_triples
          with (ia := ia) (ua := CombinedInstallAction.uninstallAction c);
          [reflexivity | exact Cu |].
        apply update_shows_first_enabled.
        intros H; apply F.
        unfold triple in Cu; injection Cu as Eu _ _; now rewrite <- Eu.
      * apply changed_false in Ci.
        now apply shows_first_enabled_triples
          with (ia := CombinedInstallAction.installAction c)
               (ua := CombinedInstallAction.uninstallAction c).
Qed.

Lemma same_triple_not_changed (before after : Action) :
  triple before = triple after -> changed before after = false.
Proof.
  unfold triple, changed; intros H; injection H as -> -> ->.
  rewrite Bool.eqb_reflx, String.eqb_refl.
  destruct (class after); simpl; [now rewrite String.eqb_refl | reflexivity].
Qed.

(** The children of a combined action the code can build were derived from
    the extension it holds. *)
Lemma CombinedInstallAction_reachable_children
    (svc : IExtensionsWorkbenchService) (c : CombinedInstallAction.t) :
  CombinedInstallAction.reachable svc c ->
  exists a b : Action,
    CombinedInstallAction.installAction c
    = InstallAction.update svc (CombinedInstallAction.extension c) a
    /\ CombinedInstallAction.uninstallAction c
       = UninstallAction.update (CombinedInstallAction.extension c) b.
Proof.
  intros [|e c' R]; simpl.
  - unfold InstallAction.new, UninstallAction.new.
    eexists; eexists; split; reflexivity.
  - eexists; eexists; split; reflexivity.
Qed.

(** Where the Uninstall action is enabled, the Install action shows its plain
    disabled state. *)
Lemma uninstall_enabled_install_plain (svc : IExtensionsWorkbenchService)
    (x : option IExtension) (a b : Action) :
  enabled (UninstallAction.update x b) = true ->
  triple (InstallAction.update svc x a)
  = (false, InstallAction.InstallLabel, Some InstallAction.Class).
Proof.
  unfold UninstallAction.update, InstallAction.update, type_is, state_is.
  destruct x as [e|]; [| discriminate].
  destruct (type e) as [[]|]; simpl; try discriminate.
  destruct (state e); simpl; try discriminate;
    intros _; unfold triple; simpl; now rewrite andb_false_r.
Qed.

(** When the setter has rebound the Install child and the child changed, the
    children the combined action then sees, the Uninstall child still as it
    was, fit the new extension. *)
Lemma CombinedInstallAction_children_fit_midway
    (svc : IExtensionsWorkbenchService) (c : CombinedInstallAction.t)
    (x : option IExtension) :
  CombinedInstallAction.reachable svc c ->
  changed (CombinedInstallAction.installAction c)
    (InstallAction.update svc x (CombinedInstallAction.installAction c))
  = true ->
  children_fit x
    (InstallAction.update svc x (CombinedInstallAction.installAction c))
    (CombinedInstallAction.uninstallAction c).
Proof.
  intros R Hc [Hi|Hu].
  - apply (children_fit_derived svc x (CombinedInstallAction.installAction c)
             (CombinedInstallAction.uninstallAction c)); now left.
  - destruct (CombinedInstallAction_reachable_children svc c R)
      as (a & b & Ea & Eb).
    rewrite Eb in Hu.
    assert (P := uninstall_enabled_install_plain svc _ a b Hu).
    rewrite <- Ea in P.
    destruct x as [e|].
    + destruct (type_is e System) eqn:T; [| now exists e].
      rewrite same_triple_not_changed in Hc; [discriminate Hc |].
      rewrite P; unfold InstallAction.update; rewrite T; reflexivity.
    + rewrite same_triple_not_changed in Hc; [discriminate Hc |].
      rewrite P; reflexivity.
Qed.

(** C4: for every bound extension and every state the two children derive
    from it, the combined action shows the triple of its first enabled child
    (Install before Uninstall) and running it is running that child; with no
    child enabled it is disabled and running it makes no call and returns a
    resolved null promise.  The same holds of every combined action built by
    the constructor and the setter.  Running follows the first enabled child
    for any two children, both enabled included; so does the displayed
    triple for any two children of a record that is not of the system type,
    and for the children the combined action sees midway through the setter,
    when the Install child is rebound and the Uninstall child is not yet. *)
Theorem CombinedInstallAction_first_enabled_child :
  forall (svc : IExtensionsWorkbenchService) (confirm : string -> bool)
         (e : IExtension) (ia0 ua0 this : Action),
    let ia := InstallAction.update svc (Some e) ia0 in
    let ua := UninstallAction.update (Some e) ua0 in
    let composite := CombinedInstallAction.update (Some e) ia ua this in
    let ran := CombinedInstallAction.run confirm (Some e) ia ua in
    match first_enabled ia ua with
    | Some (k, child) =>
        triple composite = triple child
        /\ ran = child_run confirm (Some e) k
    | None =>
        enabled composite = false
        /\ ran = ([], Returns TPromise_as_null)
    end
    /\ (forall c : CombinedInstallAction.t,
          CombinedInstallAction.reachable svc c ->
          shows_first_enabled (CombinedInstallAction.installAction c)
            (CombinedInstallAction.uninstallAction c)
            (CombinedInstallAction.self c))
    /\ (forall (x : option IExtension) (install uninstall : Action),
          CombinedInstallAction.run confirm x install uninstall
          = match first_enabled install uninstall with
            | Some (k, _) => child_run confirm x k
            | None => ([], Returns TPromise_as_null)
            end)
    /\ (forall install uninstall shown : Action,
          type e <> Some System ->
          shows_first_enabled install uninstall
            (CombinedInstallAction.update (Some e) install uninstall shown))
    /\ (forall (c : CombinedInstallAction.t) (x : option IExtension),
          CombinedInstallAction.reachable svc c ->
          let rebound :=
            InstallAction.update svc x
              (CombinedInstallAction.installAction c) in
          changed (CombinedInstallAction.installAction c) rebound = true ->
          shows_first_enabled rebound
            (CombinedInstallAction.uninstallAction c)
            (CombinedInstallAction.update x rebound
               (CombinedInstallAction.uninstallAction c)
               (CombinedInstallAction.self c))).
Proof.
  intros svc confirm e ia0 ua0 this ia ua composite ran.
  split; [| split; [| split; [| split]]].
  - assert (S := update_shows_first_enabled (Some e) ia ua this
                   (children_fit_derived svc (Some e) ia0 ua0)).
    fold ia ua composite in S.
    unfold shows_first_enabled in S.
    unfold ran, CombinedInstallAction.run.
    unfold first_enabled in *; simpl in *.
    destruct (enabled ia); [| destruct (enabled ua)]; split;
      solve [exact S | reflexivity].
  - intros c R; apply (CombinedInstallAction_reachable_shows svc c R).
  - intros x install uninstall.
    unfold CombinedInstallAction.run, first_enabled; simpl.
    destruct (enabled install); [| destruct (enabled uninstall)];
      reflexivity.
  - intros install uninstall shown T.
    apply update_shows_first_enabled.
    intros _; exists e; split; [reflexivity | now apply type_is_false].
  - intros c x R rebound Hc.
    apply update_shows_first_enabled.
    now apply CombinedInstallAction_children_fit_midway.
Qed.

(** Midway through rebinding a combined action from the sample extension to
    a gallery entry both children are enabled, each with its own triple, and
    the combined action shows the Install child. *)
Example CombinedInstallAction_both_children_enabled :
  let c :=
    CombinedInstallAction.set_extension permissive (Some theme)
      (CombinedInstallAction.new permissive) in
  let install :=
    InstallAction.update permissive (Some gallery_entry)
      (CombinedInstallAction.installAction c) in
  let uninstall := CombinedInstallAction.uninstallAction c in
  changed (CombinedInstallAction.installAction c) install = true
  /\ enabled install = true /\ enabled uninstall = true
  /\ triple install <> triple uninstall
  /\ triple (CombinedInstallAction.update (Some gallery_entry) install
               uninstall (CombinedInstallAction.self c))
     = triple install
  /\ CombinedInstallAction.run (fun _ => true) (Some gallery_entry) install
       uninstall
     = InstallAction.run (Some gallery_entry).
Proof.
  cbv zeta; repeat split; discriminate.
Qed.

(** ** The display widgets *)

Lemma Qfloor_between (x : Q) (z : Z) :
  (inject_Z z <= x)%Q -> (x < inject_Z (z + 1))%Q -> Qfloor x = z.
Proof.
  intros Hle Hlt.
  assert (L := Qfloor_le x).
  assert (U := Qlt_floor x).
  assert (H1 : (inject_Z z < inject_Z (Qfloor x + 1))%Q)
    by (eapply Qle_lt_trans; eassumption).
  assert (H2 : (inject_Z (Qfloor x) < inject_Z (z + 1))%Q)
    by (eapply Qle_lt_trans; eassumption).
  rewrite <- Zlt_Qlt in H1, H2.
  lia.
Qed.

(** Rounding the doubled rating and halving it moves the rating by a quarter
    at most. *)
Lemma nearest_half_close (r : Q) :
  (Qabs (inject_Z (Math_round (r * 2)) / 2 - r) <= 1 # 4)%Q.
Proof.
  unfold Math_round.
  assert (L := Qfloor_le (r * 2 + (1 # 2))).
  assert (U := Qlt_floor (r * 2 + (1 # 2))).
  rewrite inject_Z_plus in U.
  set (h := inject_Z (Qfloor (r * 2 + (1 # 2)))) in *.
  change (inject_Z 1) with 1%Q in U.
  unfold Qdiv; change (/ 2)%Q with (1 # 2)%Q.
  apply Qabs_Qle_condition; split; lra.
Qed.

Lemma Math_round_of_4_3 (r : Q) : (r == 43 # 10)%Q -> Math_round (r * 2) = 9.
Proof.
  intros Hr; unfold Math_round; apply Qfloor_between.
  - change (inject_Z 9) with (9 # 1)%Q; lra.
  - change (inject_Z (9 + 1)) with (10 # 1)%Q; lra.
Qed.

(** C5: in the full-size mode a rating of 4.3 is drawn as four full stars
    followed by one half star; the stars are assigned from the rating rounded
    to the nearest half, which is within a quarter of the rating; with a null
    rating the container is left empty, in either mode. *)
Theorem RatingsWidget_render_stars :
  forall (e : IExtension) (container : list HTMLElement),
    match rating e with
    | None =>
        forall options : IOptions,
          RatingsWidget.render options (Some e) container = []
    | Some r =>
        let nearest := (inject_Z (Math_round (r * 2)) / 2)%Q in
        RatingsWidget.render {| small := false |} (Some e) container
        = fold_left (RatingsWidget.star nearest) [1; 2; 3; 4; 5] []
        /\ (Qabs (nearest - r) <= 1 # 4)%Q
        /\ ((r == 43 # 10)%Q ->
            RatingsWidget.render {| small := false |} (Some e) container
            = [dollar "span.full.star"; dollar "span.full.star";
               dollar "span.full.star"; dollar "span.full.star";
               dollar "span.half.star"])
    end.
Proof.
  intros e container; unfold RatingsWidget.render.
  destruct (rating e) as [r|]; [| reflexivity].
  simpl ToNumber; cbv zeta.
  split; [reflexivity |].
  split; [apply nearest_half_close |].
  intros Hr; simpl small; simpl andb; cbv iota.
  rewrite (Math_round_of_4_3 r Hr); reflexivity.
Qed.

(** The rating of 4.3 of the sample record, as a fraction and as the float
    the program holds, and a record without a rating. *)
Example RatingsWidget_render_theme :
  RatingsWidget.render {| small := false |} (Some theme) []
  = [dollar "span.full.star"; dollar "span.full.star";
     dollar "span.full.star"; dollar "span.full.star";
     dollar "span.half.star"]
  /\ RatingsWidget.render {| small := false |} (Some theme_binary64) []
     = RatingsWidget.render {| small := false |} (Some theme) []
  /\ RatingsWidget.render {| small := false |} (Some builtin) [] = [].
Proof. repeat split. Qed.



(** ** Confirmation before uninstalling *)

(** C7: running the Uninstall action on a bound extension asks for
    confirmation before anything else; when the user declines, that question
    is the only call made, the service is never asked to uninstall, and the
    run returns a resolved null promise rather than failing. *)
Theorem UninstallAction_run_declined :
  forall (confirm : string -> bool) (e : IExtension),
    confirm (UninstallAction.deleteSure e) = false ->
    let ran := UninstallAction.run confirm (Some e) in
    ran = ([WindowConfirm (UninstallAction.deleteSure e)],
           Returns TPromise_as_null)
    /\ (forall x, ~ In (ServiceUninstall x) (fst ran))
    /\ (forall service,
          settle service TPromise_as_null
          = {| settled_at := 0; fulfilled := true |})
    /\ (forall answer : string -> bool,
          hd_error (fst (UninstallAction.run answer (Some e)))
          = Some (WindowConfirm (UninstallAction.deleteSure e))).
Proof.
  intros confirm e Hno ran; unfold ran, UninstallAction.run.
  rewrite Hno; simpl.
  split; [reflexivity |].
  split; [intros x [H|[]]; discriminate H |].
  split; [reflexivity |].
  intros answer; destruct (answer (UninstallAction.deleteSure e)); reflexivity.
Qed.

(** The user declines to uninstall the sample extension. *)
Lemma UninstallAction_run_declined_theme :
  (fun _ : string => false) (UninstallAction.deleteSure theme) = false
  /\ UninstallAction.run (fun _ => false) (Some theme)
     = ([WindowConfirm "Are you sure you want to uninstall 'Theme'?"],
        Returns TPromise_as_null).
Proof.
  split; [reflexivity |].
  apply (UninstallAction_run_declined (fun _ => false) theme); reflexivity.
Defined.

(** The user agrees: the question comes first, the uninstall second. *)
Example UninstallAction_run_accepted_theme :
  fst (UninstallAction.run (fun _ => true) (Some theme))
  = [WindowConfirm "Are you sure you want to uninstall 'Theme'?";
     ServiceUninstall (Some theme)].
Proof. reflexivity. Qed.

(** ** Construction of the sort action *)

(** C8: constructing a sort action with neither a sort field nor a sort
    order throws at once; with at least one of the two given the constructor
    returns the new action, disabled and holding the empty query. *)
Theorem ChangeSortAction_new_throws_iff :
  forall (Query : Type) (Query_parse : string -> Query) (id label : string)
         (sortBy sortOrder : JsString),
    (sortBy = undefined /\ sortOrder = undefined ->
     ChangeSortAction.new Query Query_parse id label sortBy sortOrder
     = ChangeSortAction.ThrowsError "bad arguments")
    /\ (sortBy <> undefined \/ sortOrder <> undefined ->
        exists this,
          ChangeSortAction.new Query Query_parse id label sortBy sortOrder
          = ChangeSortAction.Built this
          /\ enabled (ChangeSortAction.base Query this) = false
          /\ ChangeSortAction.query Query this = Query_parse ""
          /\ ChangeSortAction.sortBy Query this = sortBy
          /\ ChangeSortAction.sortOrder Query this = sortOrder).
Proof.
  intros Query Query_parse id label sortBy sortOrder; split.
  - intros [-> ->]; reflexivity.
  - intros H; unfold ChangeSortAction.new.
    destruct sortBy, sortOrder;
      try (eexists; repeat split; reflexivity).
    destruct H as [H|H]; now elim H.
Qed.

(** ** Derived state as a function of the bound snapshot *)

Lemma derived_label (new : IExtensionsWorkbenchService -> Action)
    (update : Derivation) (l : string) :
  (forall svc, label (new svc) = l) ->
  (forall svc x a, label (update svc x a) = label a) ->
  forall a, derived new update a -> label a = l.
Proof.
  intros Hnew Hupd a D; induction D as [svc | svc e a D IH].
  - apply Hnew.
  - now rewrite Hupd.
Qed.

Lemma derived_class (new : IExtensionsWorkbenchService -> Action)
    (update : Derivation) (c : option string) :
  (forall svc, class (new svc) = c) ->
  (forall svc x a, class (update svc x a) = class a) ->
  forall a, derived new update a -> class a = c.
Proof.
  intros Hnew Hupd a D; induction D as [svc | svc e a D IH].
  - apply Hnew.
  - now rewrite Hupd.
Qed.

Lemma inputs_bound (svc1 svc2 : IExtensionsWorkbenchService)
    (e1 e2 : IExtension) :
  inputs svc1 (Some e1) = inputs svc2 (Some e2) ->
  state e1 = state e2 /\ type e1 = type e2 /\ outdated e1 = outdated e2
  /\ canInstall svc1 e1 = canInstall svc2 e2.
Proof.
  unfold inputs; simpl; intros H; injection H; auto.
Qed.

Lemma InstallAction_pure :
  pure_derivation InstallAction.new InstallAction.update.
Proof.
  intros svc1 svc2 x1 x2 a1 a2 _ _ H.
  destruct x1 as [e1|], x2 as [e2|]; try discriminate H; [| reflexivity].
  apply inputs_bound in H; destruct H as (Hs & Ht & _ & Hc).
  unfold InstallAction.update, type_is, state_is; rewrite Hs, Ht, Hc.
  destruct (type e2) as [[]|], (state e2), (canInstall svc2 e2); reflexivity.
Qed.

Lemma UninstallAction_pure :
  pure_derivation (fun _ => UninstallAction.new)
    (fun _ => UninstallAction.update).
Proof.
  intros svc1 svc2 x1 x2 a1 a2 D1 D2 H.
  assert (L : forall a, derived (fun _ => UninstallAction.new)
                          (fun _ => UninstallAction.update) a ->
                        label a = "Uninstall"
                        /\ class a = Some "extension-action uninstall").
  { intros a D; split;
      [eapply derived_label | eapply derived_class]; try exact D;
      try reflexivity; intros _ [x|] b; unfold UninstallAction.update;
      try destruct (negb (type_is x User)); reflexivity. }
  destruct (L a1 D1) as [L1 C1], (L a2 D2) as [L2 C2].
  assert (E : enabled (UninstallAction.update x1 a1)
              = enabled (UninstallAction.update x2 a2)).
  { destruct x1 as [e1|], x2 as [e2|]; try discriminate H; [| reflexivity].
    apply inputs_bound in H; destruct H as (Hs & Ht & _ & _).
    unfold UninstallAction.update, type_is, state_is; rewrite Hs, Ht.
    destruct (type e2) as [[]|], (state e2); reflexivity. }
  assert (K : forall x a, label (UninstallAction.update x a) = label a
                          /\ class (UninstallAction.update x a) = class a).
  { intros [x|] a; unfold UninstallAction.update;
      try destruct (negb (type_is x User)); split; reflexivity. }
  unfold triple; rewrite E.
  rewrite (proj1 (K x1 a1)), (proj2 (K x1 a1)),
    (proj1 (K x2 a2)), (proj2 (K x2 a2)).
  now rewrite L1, L2, C1, C2.
Qed.

Lemma pure_of_parts (new : IExtensionsWorkbenchService -> Action)
    (update : Derivation) (l : string) :
  (forall svc, label (new svc) = l) ->
  (forall svc x a, label (update svc x a) = label a) ->
  (forall svc1 svc2 x1 x2 a1 a2,
      inputs svc1 x1 = inputs svc2 x2 ->
      enabled (update svc1 x1 a1) = enabled (update svc2 x2 a2)
      /\ class (update svc1 x1 a1) = class (update svc2 x2 a2)) ->
  pure_derivation new update.
Proof.
  intros Hnew Hlabel Hrest svc1 svc2 x1 x2 a1 a2 D1 D2 H.
  destruct (Hrest svc1 svc2 x1 x2 a1 a2 H) as [E C].
  unfold triple; rewrite E, C, !Hlabel.
  now rewrite (derived_label new update l Hnew Hlabel a1 D1),
    (derived_label new update l Hnew Hlabel a2 D2).
Qed.

Lemma UpdateAction_pure :
  pure_derivation UpdateAction.new UpdateAction.update.
Proof.
  apply pure_of_parts with (l := "Update").
  - reflexivity.
  - intros svc [x|] a; unfold UpdateAction.update;
      [destruct (negb (type_is x User)) |]; reflexivity.
  - intros svc1 svc2 x1 x2 a1 a2 H.
    destruct x1 as [e1|], x2 as [e2|]; try discriminate H;
      [| split; reflexivity].
    apply inputs_bound in H; destruct H as (Hs & Ht & Ho & Hc).
    unfold UpdateAction.update, type_is, state_is; rewrite Hs, Ht, Ho, Hc.
    destruct (type e2) as [[]|], (state e2), (canInstall svc2 e2),
      (outdated e2); split; reflexivity.
Qed.

Lemma EnableAction_pure :
  pure_derivation (fun _ => EnableAction.new) (fun _ => EnableAction.update).
Proof.
  apply pure_of_parts with (l := "Enable").
  - reflexivity.
  - intros _ [x|] a; reflexivity.
  - intros svc1 svc2 x1 x2 a1 a2 H.
    destruct x1 as [e1|], x2 as [e2|]; try discriminate H;
      [| split; reflexivity].
    apply inputs_bound in H; destruct H as (Hs & _).
    unfold EnableAction.update, state_is; rewrite Hs.
    destruct (state e2); split; reflexivity.
Qed.

Lemma DisableAction_pure :
  pure_derivation (fun _ => DisableAction.new) (fun _ => DisableAction.update).
Proof.
  apply pure_of_parts with (l := "Disable").
  - reflexivity.
  - intros _ [x|] a; reflexivity.
  - intros svc1 svc2 x1 x2 a1 a2 H.
    destruct x1 as [e1|], x2 as [e2|]; try discriminate H;
      [| split; reflexivity].
    apply inputs_bound in H; destruct H as (Hs & _).
    unfold DisableAction.update, state_is; rewrite Hs.
    destruct (state e2); split; reflexivity.
Qed.

Lemma ReloadAction_pure :
  pure_derivation (fun _ => ReloadAction.new) (fun _ => ReloadAction.update).
Proof.
  apply pure_of_parts with (l := "Reload").
  - reflexivity.
  - intros _ [x|] a; reflexivity.
  - intros svc1 svc2 x1 x2 a1 a2 H.
    destruct x1 as [e1|], x2 as [e2|]; try discriminate H;
      [| split; reflexivity].
    apply inputs_bound in H; destruct H as (Hs & _).
    unfold ReloadAction.update, state_is; rewrite Hs.
    destruct (state e2); split; reflexivity.
Qed.

Lemma InstallAction_settled : settled_derivation InstallAction.update.
Proof.
  intros svc [x|] a; unfold InstallAction.update; [| reflexivity].
  destruct (type_is x System); [reflexivity |].
  destruct (state_is x Installing); reflexivity.
Qed.

Lemma UninstallAction_settled :
  settled_derivation (fun _ => UninstallAction.update).
Proof.
  intros _ [x|] a; unfold UninstallAction.update; [| reflexivity].
  destruct (negb (type_is x User)); reflexivity.
Qed.

Lemma UpdateAction_settled : settled_derivation UpdateAction.update.
Proof.
  intros svc [x|] a; unfold UpdateAction.update; [| reflexivity].
  destruct (negb (type_is x User)); [reflexivity |].
  destruct (canInstall svc x), (state_is x Installed), (state_is x Disabled),
    (outdated x); reflexivity.
Qed.

Lemma EnableAction_settled : settled_derivation (fun _ => EnableAction.update).
Proof.
  intros _ [x|] a; unfold EnableAction.update; [| reflexivity].
  destruct (state_is x Disabled); reflexivity.
Qed.

Lemma DisableAction_settled :
  settled_derivation (fun _ => DisableAction.update).
Proof.
  intros _ [x|] a; unfold DisableAction.update; [| reflexivity].
  destruct (state_is x Installed); reflexivity.
Qed.

Lemma ReloadAction_settled : settled_derivation (fun _ => ReloadAction.update).
Proof.
  intros _ [x|] a; unfold ReloadAction.update; [| reflexivity].
  destruct (state_is x NeedsReload); reflexivity.
Qed.

Lemma InstallAction_enabled_inputs
    (svc1 svc2 : IExtensionsWorkbenchService) (x1 x2 : option IExtension)
    (a1 a2 : Action) :
  inputs svc1 x1 = inputs svc2 x2 ->
  enabled (InstallAction.update svc1 x1 a1)
  = enabled (InstallAction.update svc2 x2 a2).
Proof.
  intros H.
  destruct x1 as [e1|], x2 as [e2|]; try discriminate H; [| reflexivity].
  apply inputs_bound in H; destruct H as (Hs & Ht & _ & Hc).
  unfold InstallAction.update, type_is, state_is; rewrite Hs, Ht, Hc.
  destruct (type e2) as [[]|], (state e2), (canInstall svc2 e2); reflexivity.
Qed.

Lemma UninstallAction_enabled_inputs
    (svc1 svc2 : IExtensionsWorkbenchService) (x1 x2 : option IExtension)
    (a1 a2 : Action) :
  inputs svc1 x1 = inputs svc2 x2 ->
  enabled (UninstallAction.update x1 a1)
  = enabled (UninstallAction.update x2 a2).
Proof.
  intros H.
  destruct x1 as [e1|], x2 as [e2|]; try discriminate H; [| reflexivity].
  apply inputs_bound in H; destruct H as (Hs & Ht & _ & _).
  unfold UninstallAction.update, type_is, state_is; rewrite Hs, Ht.
  destruct (type e2) as [[]|], (state e2); reflexivity.
Qed.

(** A combined action the code can build is enabled exactly when one of its
    children is. *)
Lemma CombinedInstallAction_enabled_children
    (svc : IExtensionsWorkbenchService) (c : CombinedInstallAction.t) :
  CombinedInstallAction.reachable svc c ->
  enabled (CombinedInstallAction.self c)
  = enabled (CombinedInstallAction.installAction c)
    || enabled (CombinedInstallAction.uninstallAction c).
Proof.
  intros R; destruct (CombinedInstallAction_reachable_shows svc c R) as [_ S].
  unfold shows_first_enabled, first_enabled in S; simpl in S.
  destruct (enabled (CombinedInstallAction.installAction c)) eqn:Ei;
    [| destruct (enabled (CombinedInstallAction.uninstallAction c)) eqn:Eu];
    simpl; unfold triple in S; congruence.
Qed.

Lemma CombinedInstallAction_enabled_inputs
    (svc1 svc2 : IExtensionsWorkbenchService)
    (c1 c2 : CombinedInstallAction.t) (x1 x2 : option IExtension) :
  CombinedInstallAction.reachable svc1 c1 ->
  CombinedInstallAction.reachable svc2 c2 ->
  inputs svc1 x1 = inputs svc2 x2 ->
  enabled (CombinedInstallAction.self
             (CombinedInstallAction.set_extension svc1 x1 c1))
  = enabled (CombinedInstallAction.self
               (CombinedInstallAction.set_extension svc2 x2 c2)).
Proof.
  intros R1 R2 H.
  rewrite (CombinedInstallAction_enabled_children svc1),
    (CombinedInstallAction_enabled_children svc2)
    by (apply CombinedInstallAction.reachable_set; assumption).
  simpl.
  now rewrite (InstallAction_enabled_inputs svc1 svc2 x1 x2 _
                 (CombinedInstallAction.installAction c2) H),
    (UninstallAction_enabled_inputs svc1 svc2 x1 x2 _
       (CombinedInstallAction.uninstallAction c2) H).
Qed.

Lemma CombinedInstallAction_set_extension_settled
    (svc : IExtensionsWorkbenchService) (x : option IExtension)
    (c : CombinedInstallAction.t) :
  CombinedInstallAction.set_extension svc x
    (CombinedInstallAction.set_extension svc x c)
  = CombinedInstallAction.set_extension svc x c.
Proof.
  unfold CombinedInstallAction.set_extension at 1; simpl.
  rewrite (InstallAction_settled svc x).
  rewrite (UninstallAction_settled svc x).
  rewrite !changed_same.
  reflexivity.
Qed.

(** C9, the claim on the combined action: bound to the same built-in record
    under the same service, a new combined action and one that was bound to
    a gallery entry before display different labels. *)
Lemma CombinedInstallAction_label_keeps_history :
  let fresh :=
    CombinedInstallAction.set_extension permissive (Some builtin)
      (CombinedInstallAction.new permissive) in
  let rebound :=
    CombinedInstallAction.set_extension permissive (Some builtin)
      (CombinedInstallAction.set_extension permissive (Some gallery_entry)
         (CombinedInstallAction.new permissive)) in
  CombinedInstallAction.extension fresh
  = CombinedInstallAction.extension rebound
  /\ triple (CombinedInstallAction.self fresh)
     = (false, "", Some "extension-action install no-extension")
  /\ triple (CombinedInstallAction.self rebound)
     = (false, "Install", Some "extension-action install no-extension")
  /\ triple (CombinedInstallAction.self fresh)
     <> triple (CombinedInstallAction.self rebound)
  /\ (let ia := InstallAction.update permissive (Some builtin)
                  (InstallAction.new permissive) in
      let ua := UninstallAction.update (Some builtin) UninstallAction.new in
      let before := CombinedInstallAction.self
                      (CombinedInstallAction.new permissive) in
      let shown := CombinedInstallAction.update (Some gallery_entry)
                     (InstallAction.update permissive (Some gallery_entry)
                        (InstallAction.new permissive))
                     (UninstallAction.update (Some gallery_entry)
                        UninstallAction.new) before in
      triple (CombinedInstallAction.update (Some builtin) ia ua before)
      <> triple (CombinedInstallAction.update (Some builtin) ia ua shown)).
Proof.
  cbv zeta; repeat split; discriminate.
Qed.

(** Two Uninstall actions with different pasts, bound to the same record. *)
Example UninstallAction_same_triple_after_different_pasts :
  triple (UninstallAction.update (Some theme) UninstallAction.new)
  = triple (UninstallAction.update (Some theme)
              (UninstallAction.update (Some gallery_entry)
                 (UninstallAction.update (Some builtin) UninstallAction.new)))
  /\ triple (UninstallAction.update (Some theme) UninstallAction.new)
     = (true, "Uninstall", Some "extension-action uninstall").
Proof. split; reflexivity. Qed.

(** C9, as the code has it: the triple each single-extension action derives
    depends only on whether a record is bound, on its state, type and
    outdated flag and on the [canInstall] answer, not on what the action
    displayed before, and deriving it again changes nothing; a widget renders
    the same whatever its container held, and the same again when rendered
    twice; of the combined action the enabled flag is such a function, and
    binding it to the same record again changes nothing. *)
Theorem derived_state_depends_on_inputs :
  Forall (fun action =>
            pure_derivation (fst action) (snd action)
            /\ settled_derivation (snd action))
    single_extension_actions
  /\ (forall svc1 svc2 c1 c2 x1 x2,
        CombinedInstallAction.reachable svc1 c1 ->
        CombinedInstallAction.reachable svc2 c2 ->
        inputs svc1 x1 = inputs svc2 x2 ->
        enabled (CombinedInstallAction.self
                   (CombinedInstallAction.set_extension svc1 x1 c1))
        = enabled (CombinedInstallAction.self
                     (CombinedInstallAction.set_extension svc2 x2 c2)))
  /\ (forall svc x c,
        CombinedInstallAction.set_extension svc x
          (CombinedInstallAction.set_extension svc x c)
        = CombinedInstallAction.set_extension svc x c)
  /\ (forall options x disabledInWorkspace (held held' : list HTMLElement),
        StatusWidget.render disabledInWorkspace x held
        = StatusWidget.render disabledInWorkspace x held'
        /\ InstallWidget.render options x held
           = InstallWidget.render options x held'
        /\ RatingsWidget.render options x held
           = RatingsWidget.render options x held'
        /\ StatusWidget.render disabledInWorkspace x
             (StatusWidget.render disabledInWorkspace x held)
           = StatusWidget.render disabledInWorkspace x held
        /\ InstallWidget.render options x (InstallWidget.render options x held)
           = InstallWidget.render options x held
        /\ RatingsWidget.render options x (RatingsWidget.render options x held)
           = RatingsWidget.render options x held).
Proof.
  split.
  { unfold single_extension_actions.
    repeat (apply Forall_cons; [split |]); simpl;
      auto using InstallAction_pure, UninstallAction_pure, UpdateAction_pure,
        EnableAction_pure, DisableAction_pure, ReloadAction_pure,
        InstallAction_settled, UninstallAction_settled, UpdateAction_settled,
        EnableAction_settled, DisableAction_settled, ReloadAction_settled. }
  split; [exact CombinedInstallAction_enabled_inputs |].
  split; [exact CombinedInstallAction_set_extension_settled |].
  intros; repeat split.
Qed.

(** * Further properties of the actions and widgets *)

(** ** How the single-extension actions relate *)

(** X1: the Uninstall action is enabled exactly for a user extension that is
    Installed, Disabled or in need of a reload, and never together with the
    Install action on the same record. *)
Theorem install_and_uninstall_exclude_each_other :
  forall (svc : IExtensionsWorkbenchService) (e : IExtension)
         (ia ua : Action),
    (enabled (UninstallAction.update (Some e) ua) = true <->
     type e = Some User
     /\ (state e = Installed \/ state e = Disabled \/ state e = NeedsReload))
    /\ ~ (enabled (InstallAction.update svc (Some e) ia) = true
          /\ enabled (UninstallAction.update (Some e) ua) = true).
Proof.
  intros svc e ia ua.
  assert (U : enabled (UninstallAction.update (Some e) ua) = true <->
              type e = Some User
              /\ (state e = Installed \/ state e = Disabled
                  \/ state e = NeedsReload)).
  { unfold UninstallAction.update.
    rewrite <- (type_is_true e User), <- !state_is_true.
    destruct (type_is e User); simpl.
    - rewrite !orb_true_iff; tauto.
    - split; [discriminate | intros [H _]; discriminate H]. }
  split; [exact U |].
  intros [I H]; apply U in H.
  assert (S : state e = Uninstalled).
  { unfold InstallAction.update in I.
    destruct (type_is e System); [discriminate I |].
    apply state_is_true.
    destruct (state_is e Installing); simpl in I;
      now apply andb_true_iff in I. }
  destruct H as (_ & [H|[H|H]]); congruence.
Qed.

(** X2: at most one of Enable, Disable and Reload is enabled for a record,
    and none of them while it is Installing or Uninstalled. *)
Theorem enable_disable_reload_exclusive :
  forall (e : IExtension) (a1 a2 a3 : Action),
    let en := enabled (EnableAction.update (Some e) a1) in
    let dis := enabled (DisableAction.update (Some e) a2) in
    let rel := enabled (ReloadAction.update (Some e) a3) in
    (en = true <-> state e = Disabled)
    /\ (dis = true <-> state e = Installed)
    /\ (rel = true <-> state e = NeedsReload)
    /\ en && dis = false /\ en && rel = false /\ dis && rel = false
    /\ (state e = Installing \/ state e = Uninstalled ->
        en = false /\ dis = false /\ rel = false).
Proof.
  intros e a1 a2 a3; cbv zeta.
  unfold EnableAction.update, DisableAction.update, ReloadAction.update,
    state_is; simpl.
  destruct (state e); simpl; repeat split; intros;
    solve [reflexivity | discriminate
          | match goal with H : _ \/ _ |- _ => destruct H; discriminate end].
Qed.

(** X3: whenever the Update action is enabled for a record, the Uninstall
    action is enabled for it too, the Install action is not, and exactly one
    of Enable and Disable is. *)
Theorem update_enabled_implies :
  forall (svc : IExtensionsWorkbenchService) (e : IExtension)
         (a ia ua ea da : Action),
    enabled (UpdateAction.update svc (Some e) a) = true ->
    enabled (UninstallAction.update (Some e) ua) = true
    /\ enabled (InstallAction.update svc (Some e) ia) = false
    /\ xorb (enabled (EnableAction.update (Some e) ea))
            (enabled (DisableAction.update (Some e) da)) = true.
Proof.
  intros svc e a ia ua ea da H.
  unfold UpdateAction.update in H.
  destruct (type_is e User) eqn:T; simpl in H; [| discriminate H].
  apply type_is_true in T.
  apply andb_true_iff in H as [H _]; apply andb_true_iff in H as [_ S].
  apply orb_true_iff in S; rewrite !state_is_true in S.
  unfold UninstallAction.update, InstallAction.update, EnableAction.update,
    DisableAction.update, type_is, state_is; rewrite T; simpl.
  destruct S as [S|S]; rewrite S; simpl; rewrite ?andb_false_r; auto.
Qed.

(** The sample extension is one the Update action is enabled for. *)
Lemma update_enabled_implies_theme :
  enabled (UpdateAction.update permissive (Some theme)
             (UpdateAction.new permissive)) = true
  /\ enabled (UninstallAction.update (Some theme) UninstallAction.new) = true
  /\ enabled (InstallAction.update permissive (Some theme)
                (InstallAction.new permissive)) = false.
Proof.
  split; [reflexivity |].
  destruct (update_enabled_implies permissive theme
              (UpdateAction.new permissive) (InstallAction.new permissive)
              UninstallAction.new EnableAction.new DisableAction.new
              eq_refl) as (U & I & _).
  split; [exact U | exact I].
Defined.

(** X4: after every derivation the class of the Update, Enable, Disable and
    Reload actions says whether the action is enabled: the plain class when
    it is, the class marked disabled when it is not, and the two differ. *)
Theorem class_follows_enabled :
  forall (svc : IExtensionsWorkbenchService) (x : option IExtension)
         (a : Action),
    let follows (after : Action) (on off : string) :=
      class after = Some (if enabled after then on else off) /\ on <> off in
    follows (UpdateAction.update svc x a)
      UpdateAction.EnabledClass UpdateAction.DisabledClass
    /\ follows (EnableAction.update x a)
         EnableAction.EnabledClass EnableAction.DisabledClass
    /\ follows (DisableAction.update x a)
         DisableAction.EnabledClass DisableAction.DisabledClass
    /\ follows (ReloadAction.update x a)
         ReloadAction.EnabledClass ReloadAction.DisabledClass.
Proof.
  intros svc x a; cbv zeta.
  repeat split; try discriminate; destruct x as [e|]; try reflexivity.
  unfold UpdateAction.update.
  destruct (negb (type_is e User)); reflexivity.
Qed.

(** X5: after every derivation the Install action shows either the label
    Install with the install class, or the label Installing with the
    installing class; it shows Installing exactly for a bound record that is
    Installing and not of the system type, and is never enabled then. *)
Theorem InstallAction_label_and_class :
  forall (svc : IExtensionsWorkbenchService) (x : option IExtension)
         (a : Action),
    let after := InstallAction.update svc x a in
    let installing :=
      exists e, x = Some e /\ type e <> Some System
                /\ state e = Installing in
    (installing ->
     label after = InstallAction.InstallingLabel
     /\ class after = Some InstallAction.InstallingClass
     /\ enabled after = false)
    /\ (~ installing ->
        label after = InstallAction.InstallLabel
        /\ class after = Some InstallAction.Class).
Proof.
  intros svc x a; cbv zeta; unfold InstallAction.update.
  destruct x as [e|].
  - destruct (type_is e System) eqn:T.
    + apply type_is_true in T.
      split; [intros (e' & E & N & _); injection E as <-; now elim N |].
      intros _; split; reflexivity.
    + apply type_is_false in T.
      destruct (state_is e Installing) eqn:S.
      * apply state_is_true in S.
        split; [| intros N; elim N; now exists e].
        intros _; unfold state_is; rewrite S; simpl.
        now rewrite andb_false_r.
      * split; [| intros _; split; reflexivity].
        intros (e' & E & _ & S'); injection E as <-.
        apply state_is_true in S'; congruence.
  - split; [intros (e & E & _); discriminate E | intros _; split; reflexivity].
Qed.

(** ** The update-all action and the Update action *)

(** X6: the extensions the update-all action installs are exactly the local
    extensions the Update action would be enabled for, in the order of the
    collection; so it is enabled exactly when some local extension has its
    Update action enabled. *)
Theorem UpdateAllAction_outdated_is_where_update_enabled :
  forall (svc : IExtensionsWorkbenchService) (a this : Action),
    UpdateAllAction.outdated svc
    = filter (fun e => enabled (UpdateAction.update svc (Some e) a))
        (local svc)
    /\ (enabled (UpdateAllAction.update svc this) = true <->
        exists e, In e (local svc)
                  /\ enabled (UpdateAction.update svc (Some e) a) = true).
Proof.
  intros svc a this.
  assert (F : UpdateAllAction.outdated svc
              = filter (fun e => enabled (UpdateAction.update svc (Some e) a))
                  (local svc)).
  { unfold UpdateAllAction.outdated; apply filter_ext; intros e.
    unfold UpdateAction.update.
    destruct (type_is e User), (canInstall svc e); reflexivity. }
  split; [exact F |].
  unfold UpdateAllAction.update; simpl.
  rewrite nonempty_iff_member, F.
  split; intros [e He]; exists e; revert He;
    apply (filter_In
             (fun e => enabled (UpdateAction.update svc (Some e) a))).
Qed.

(** X7: the update-all action is disabled exactly when running it would ask
    the service for nothing; it asks for as many installs as there are
    candidates, and with none the promise it returns is settled from the
    start. *)
Theorem UpdateAllAction_disabled_iff_nothing_to_run :
  forall (svc : IExtensionsWorkbenchService) (this : Action)
         (promptToInstallDependencies : option bool)
         (service : Call -> Settlement),
    let ran := UpdateAllAction.run svc promptToInstallDependencies in
    (enabled (UpdateAllAction.update svc this) = false <-> fst ran = [])
    /\ List.length (fst ran) = List.length (UpdateAllAction.outdated svc)
    /\ (fst ran = [] ->
        exists promise, snd ran = Returns promise
                        /\ settled_at (settle service promise) = 0%nat).
Proof.
  intros svc this p service; cbv zeta.
  unfold UpdateAllAction.update, UpdateAllAction.run; simpl.
  rewrite !length_map.
  destruct (UpdateAllAction.outdated svc) as [|e l]; simpl.
  - repeat split; eexists; split; reflexivity.
  - repeat split; try discriminate.
Qed.

(** ** Running the combined action *)

(** X8: a combined action built by the constructor and the setter makes no
    call and returns a resolved null promise when it is disabled; when it is
    enabled, running it makes a call and does not fail on a missing
    extension. *)
Theorem CombinedInstallAction_run_when_reachable :
  forall (svc : IExtensionsWorkbenchService) (confirm : string -> bool)
         (c : CombinedInstallAction.t),
    CombinedInstallAction.reachable svc c ->
    let ran :=
      CombinedInstallAction.run confirm (CombinedInstallAction.extension c)
        (CombinedInstallAction.installAction c)
        (CombinedInstallAction.uninstallAction c) in
    (enabled (CombinedInstallAction.self c) = false ->
     ran = ([], Returns TPromise_as_null))
    /\ (enabled (CombinedInstallAction.self c) = true ->
        exists first rest promise, ran = (first :: rest, Returns promise)).
Proof.
  intros svc confirm c R; cbv zeta.
  rewrite (CombinedInstallAction_enabled_children svc c R).
  destruct (CombinedInstallAction_reachable_shows svc c R) as [F _].
  unfold children_fit in F; unfold CombinedInstallAction.run.
  destruct (enabled (CombinedInstallAction.installAction c)) eqn:Ei;
    [| destruct (enabled (CombinedInstallAction.uninstallAction c)) eqn:Eu];
    simpl; split; intros H; try discriminate H; try reflexivity.
  - unfold InstallAction.run; eauto.
  - destruct F as (x & -> & _); [now right |].
    unfold UninstallAction.run.
    destruct (negb (confirm (UninstallAction.deleteSure x))); eauto.
Qed.

(** A new combined action bound to the sample extension. *)
Lemma CombinedInstallAction_run_when_reachable_theme :
  enabled (CombinedInstallAction.self
             (CombinedInstallAction.set_extension permissive (Some theme)
                (CombinedInstallAction.new permissive))) = true
  /\ exists first rest promise,
       CombinedInstallAction.run (fun _ => false) (Some theme)
         (InstallAction.update permissive (Some theme)
            (InstallAction.new permissive))
         (UninstallAction.update (Some theme) UninstallAction.new)
       = (first :: rest, Returns promise).
Proof.
  split; [reflexivity |].
  apply (CombinedInstallAction_run_when_reachable permissive (fun _ => false)
           (CombinedInstallAction.set_extension permissive (Some theme)
              (CombinedInstallAction.new permissive))).
  - apply CombinedInstallAction.reachable_set,
      CombinedInstallAction.reachable_new.
  - reflexivity.
Defined.

(** X9: running the combined action asks the service to uninstall only
    through the Uninstall child, that is when the Install child is disabled,
    the Uninstall child is enabled, an extension is bound and the user
    confirmed; the confirmation is then the only call before it, and no
    install is requested in the same run. *)
Theorem CombinedInstallAction_run_uninstalls_only_confirmed :
  forall (confirm : string -> bool) (extension x : option IExtension)
         (ia ua : Action),
    In (ServiceUninstall x)
      (fst (CombinedInstallAction.run confirm extension ia ua)) ->
    enabled ia = false /\ enabled ua = true
    /\ exists e,
         extension = Some e /\ x = Some e
         /\ confirm (UninstallAction.deleteSure e) = true
         /\ fst (CombinedInstallAction.run confirm extension ia ua)
            = [WindowConfirm (UninstallAction.deleteSure e);
               ServiceUninstall (Some e)].
Proof.
  intros confirm extension x ia ua.
  unfold CombinedInstallAction.run, InstallAction.run, UninstallAction.run.
  destruct (enabled ia); simpl; [intros [H|[]]; discriminate H |].
  destruct (enabled ua); simpl; [| intros []].
  destruct extension as [e|]; simpl; [| intros []].
  destruct (confirm (UninstallAction.deleteSure e)) eqn:C; simpl.
  - intros [H|[H|[]]]; [discriminate H |].
    injection H as <-.
    split; [reflexivity |]; split; [reflexivity |].
    exists e; repeat split; exact C.
  - intros [H|[]]; discriminate H.
Qed.

(** The user confirms the uninstall of the sample extension. *)
Lemma CombinedInstallAction_run_uninstalls_only_confirmed_theme :
  In (ServiceUninstall (Some theme))
    (fst (CombinedInstallAction.run (fun _ => true) (Some theme)
            (InstallAction.update permissive (Some theme)
               (InstallAction.new permissive))
            uninstall_theme))
  /\ enabled uninstall_theme = true.
Proof.
  assert (H : In (ServiceUninstall (Some theme))
                (fst (CombinedInstallAction.run (fun _ => true) (Some theme)
                        (InstallAction.update permissive (Some theme)
                           (InstallAction.new permissive))
                        uninstall_theme)))
    by (right; left; reflexivity).
  split; [exact H |].
  exact (proj1 (proj2 (CombinedInstallAction_run_uninstalls_only_confirmed
                         _ _ _ _ _ H))).
Defined.

(** ** The star rating *)

Lemma Qle_bool_whole (h i : Z) :
  Qle_bool (inject_Z i) (inject_Z h / 2) = (2 * i <=? h)%Z.
Proof.
  unfold Qle_bool, Qdiv, Qmult, Qinv, inject_Z; cbn [Qnum Qden].
  match goal with
  | |- (?a <=? ?b)%Z = (?c <=? ?d)%Z =>
      destruct (Z.leb_spec a b), (Z.leb_spec c d); solve [reflexivity | lia]
  end.
Qed.

Lemma Qle_bool_half (h i : Z) :
  Qle_bool (inject_Z i - (1 # 2)) (inject_Z h / 2) = (2 * i - 1 <=? h)%Z.
Proof.
  unfold Qle_bool, Qdiv, Qmult, Qinv, Qminus, Qplus, Qopp, inject_Z;
    cbn [Qnum Qden].
  match goal with
  | |- (?a <=? ?b)%Z = (?c <=? ?d)%Z =>
      destruct (Z.leb_spec a b), (Z.leb_spec c d); solve [reflexivity | lia]
  end.
Qed.

(** X10: in the full-size mode a rating that is not null is always drawn as
    five stars: full stars first, then at most one half star, then empty
    stars; twice the full stars plus the half star is the doubled rating,
    rounded, and cut to the range from 0 to 10. *)
Theorem RatingsWidget_full_size_stars :
  forall (e : IExtension) (r : Q) (container : list HTMLElement),
    rating e = Some r ->
    exists full half empty : nat,
      RatingsWidget.render {| small := false |} (Some e) container
      = (repeat (dollar "span.full.star") full
         ++ repeat (dollar "span.half.star") half
         ++ repeat (dollar "span.empty.star") empty)%list
      /\ (full + half + empty = 5)%nat
      /\ (half <= 1)%nat
      /\ Z.of_nat (2 * full + half)
         = Z.max 0 (Z.min 10 (Math_round (r * 2))).
Proof.
  intros e r container Hr.
  unfold RatingsWidget.render; rewrite Hr.
  cbn [ToNumber small andb fold_left].
  unfold RatingsWidget.star.
  rewrite !Qle_bool_whole, !Qle_bool_half.
  generalize (Math_round (r * 2)); intros h.
  set (m := Z.max 0 (Z.min 10 h)).
  exists (Z.to_nat (m / 2)), (Z.to_nat (m mod 2)),
    (5 - Z.to_nat (m / 2) - Z.to_nat (m mod 2))%nat.
  assert (C : h <= 0 \/ h = 1 \/ h = 2 \/ h = 3 \/ h = 4 \/ h = 5
              \/ h = 6 \/ h = 7 \/ h = 8 \/ h = 9 \/ 10 <= h) by lia.
  destruct C as [C|C]; [| repeat destruct C as [C|C]];
    try (subst h; unfold m; repeat split; try reflexivity;
         vm_compute; repeat constructor).
  - replace m with 0 by (unfold m; lia).
    repeat match goal with
           | |- context [(?a <=? h)%Z] =>
               destruct (Z.leb_spec a h); try lia
           end.
    repeat split; vm_compute; repeat constructor.
  - replace m with 10 by (unfold m; lia).
    repeat match goal with
           | |- context [(?a <=? h)%Z] =>
               destruct (Z.leb_spec a h); try lia
           end.
    repeat split; vm_compute; repeat constructor.
Qed.

(** The five stars of the sample extension. *)
Lemma RatingsWidget_full_size_stars_theme :
  rating theme = Some (43 # 10)%Q
  /\ exists full half empty : nat,
       RatingsWidget.render {| small := false |} (Some theme) []
       = (repeat (dollar "span.full.star") full
          ++ repeat (dollar "span.half.star") half
          ++ repeat (dollar "span.empty.star") empty)%list
       /\ (full + half + empty = 5)%nat
       /\ (half <= 1)%nat
       /\ Z.of_nat (2 * full + half)
          = Z.max 0 (Z.min 10 (Math_round ((43 # 10) * 2))).
Proof.
  split; [reflexivity |].
  apply (RatingsWidget_full_size_stars theme (43 # 10)%Q []); reflexivity.
Defined.

(** ** The status widget *)

(** X11: for a bound extension the status widget holds one element; it
    carries the class active exactly when the extension is Installed and the
    class disabled exactly when it is Disabled, never both; its title is
    "Disabled (Workspace)" exactly when the runtime service lists the
    extension as disabled in the workspace, whatever its state, "Enabled"
    only for an Installed extension not so listed, and empty only when the
    extension is neither listed, Installed nor Disabled.  With nothing bound
    the widget is empty. *)
Theorem StatusWidget_render_status :
  forall (disabledInWorkspace : list string) (e : IExtension)
         (container : list HTMLElement),
    StatusWidget.render disabledInWorkspace None container = []
    /\ exists status : HTMLElement,
         StatusWidget.render disabledInWorkspace (Some e) container = [status]
         /\ (In "active" (toggled status) <-> state e = Installed)
         /\ (In "disabled" (toggled status) <-> state e = Disabled)
         /\ ~ (In "active" (toggled status) /\ In "disabled" (toggled status))
         /\ (title status = "Disabled (Workspace)" <->
             In (identifier e) disabledInWorkspace)
         /\ (title status = "Enabled" <->
             state e = Installed /\ ~ In (identifier e) disabledInWorkspace)
         /\ (title status = "" <->
             state e <> Installed /\ state e <> Disabled
             /\ ~ In (identifier e) disabledInWorkspace).
Proof.
  intros dis e container; split; [reflexivity |].
  unfold StatusWidget.render, state_is.
  eexists; split; [reflexivity |].
  assert (M : existsb (String.eqb (identifier e)) dis = true <->
              In (identifier e) dis).
  { rewrite existsb_exists; split.
    - intros (x & Hx & E); apply String.eqb_eq in E; now subst.
    - intros H; exists (identifier e); split;
        [exact H | apply String.eqb_refl]. }
  destruct (existsb (String.eqb (identifier e)) dis).
  - assert (W : In (identifier e) dis) by (apply M; reflexivity).
    clear M; destruct (state e); simpl; intuition congruence.
  - assert (W : ~ In (identifier e) dis)
      by (intros N; apply M in N; discriminate N).
    clear M; destruct (state e); simpl; intuition congruence.
Qed.

(** ** The install count *)

(** X12: for an extension with an install count that a number holds
    exactly (at most 2^53 in magnitude) the widget holds the icon and the
    count.  The full-size widget shows the number itself; the compact one
    does too up to 1000, shows the whole thousands, from 1 to 1000, up to
    one million (which is shown as 1000K), and the whole millions above. *)
Theorem InstallWidget_render_bands :
  forall (options : IOptions) (e : IExtension) (n : Z)
         (container : list HTMLElement),
    installCount e = Some n ->
    Z.abs n <= 9007199254740992 ->
    exists text : string,
      InstallWidget.render options (Some e) container
      = [dollar "span.octicon.octicon-cloud-download";
         set_textContent text (dollar "span.count")]
      /\ (small options = false -> text = String_of_Z n)
      /\ (small options = true -> n <= 1000 -> text = String_of_Z n)
      /\ (small options = true -> 1000 < n <= 1000000 ->
          exists k, text = String_of_Z k ++ "K"
                    /\ 1 <= k <= 1000 /\ 1000 * k <= n < 1000 * (k + 1))
      /\ (small options = true -> 1000000 < n ->
          exists k, text = String_of_Z k ++ "M"
                    /\ 1 <= k <= 9007199254
                    /\ 1000000 * k <= n < 1000000 * (k + 1)).
Proof.
  intros [sm] e n container Hn Hb; unfold InstallWidget.render; rewrite Hn.
  cbn [small].
  assert (K := Z.div_mod n 1000 ltac:(lia)).
  assert (K' := Z.mod_pos_bound n 1000 ltac:(lia)).
  assert (M := Z.div_mod n 1000000 ltac:(lia)).
  assert (M' := Z.mod_pos_bound n 1000000 ltac:(lia)).
  destruct sm;
    [destruct (Z.gtb_spec n 1000000); [| destruct (Z.gtb_spec n 1000)] |];
    eexists; (split; [reflexivity |]);
    repeat split; intros; try discriminate; try lia; try reflexivity.
  - exists (n / 1000000); split; [reflexivity | lia].
  - exists (n / 1000); split; [reflexivity | lia].
Qed.

(** The full-size count of the sample extension. *)
Lemma InstallWidget_render_bands_theme :
  installCount theme = Some 2500000
  /\ Z.abs 2500000 <= 9007199254740992
  /\ exists text : string,
       InstallWidget.render {| small := false |} (Some theme) []
       = [dollar "span.octicon.octicon-cloud-download";
          set_textContent text (dollar "span.count")]
       /\ (false = false -> text = "2500000").
Proof.
  split; [reflexivity |].
  split; [simpl; lia |].
  destruct (InstallWidget_render_bands {| small := false |} theme 2500000 []
              eq_refl ltac:(simpl; lia)) as (text & R & F & _).
  exists text; split; [exact R | exact F].
Defined.

(** ** Reloading the window *)

Lemma reload_messages_differ (e : IExtension) :
  ReloadAction.postEnableMessage e <> ReloadAction.postDisableMessage e.
Proof.
  unfold ReloadAction.postEnableMessage, ReloadAction.postDisableMessage.
  simpl; congruence.
Qed.

Lemma every_other_iff_member (x : string) (l : list string) :
  negb (forallb (fun y => negb (String.eqb y x)) l) = true <-> In x l.
Proof.
  induction l as [|y l IH]; simpl.
  - split; [discriminate | intros []].
  - rewrite negb_andb, negb_involutive, orb_true_iff, IH.
    rewrite String.eqb_eq; tauto.
Qed.

Lemma index_found_iff_member (x : string) (l : list string) :
  existsb (String.eqb x) l = true <-> In x l.
Proof.
  induction l as [|y l IH]; simpl.
  - split; [discriminate | intros []].
  - rewrite orb_true_iff, IH, String.eqb_eq.
    split; intros [H|H]; auto.
Qed.

(** X13: running the Reload action first asks the runtime service for the
    extensions; when that fails nothing else happens and the failure is
    passed on.  Otherwise the user is asked once, with the message about
    enabling exactly when the extension is listed as disabled or is not
    among the running extensions and the message about disabling otherwise;
    the window is reloaded only after the user agreed, and the run resolves
    either way. *)
Theorem ReloadAction_run_asks_then_reloads :
  forall (rt : IExtensionsRuntimeService) (confirm : string -> bool)
         (e : IExtension),
    let ran := ReloadAction.run rt confirm (Some e) in
    match getExtensions rt true with
    | Rejected error => ran = ([GetExtensions true], Rejected error)
    | Fulfilled running =>
        exists message : string,
          (message = ReloadAction.postEnableMessage e <->
           In (identifier e) (getDisabledExtensions rt false)
           \/ ~ In (identifier e) running)
          /\ (message = ReloadAction.postDisableMessage e <->
              ~ In (identifier e) (getDisabledExtensions rt false)
              /\ In (identifier e) running)
          /\ ran = ((GetExtensions true :: Confirm message
                     :: if confirm message then [ReloadWindow] else [])%list,
                    Fulfilled tt)
    end.
Proof.
  intros rt confirm e; cbv zeta.
  unfold ReloadAction.run, ReloadAction.getReloadMessage, then_, then_else,
    call, resolved, wrapError.
  destruct (getExtensions rt true) as [running|error]; [| reflexivity].
  assert (D := index_found_iff_member (identifier e)
                 (getDisabledExtensions rt false)).
  assert (I := every_other_iff_member (identifier e) running).
  assert (N := reload_messages_differ e).
  destruct (existsb (String.eqb (identifier e))
              (getDisabledExtensions rt false)) eqn:Ed;
    destruct (negb (forallb (fun id => negb (String.eqb id (identifier e)))
                      running)) eqn:Ei;
    simpl;
    first
      [ exists (ReloadAction.postEnableMessage e);
        split; [| split; [| destruct (confirm _); reflexivity]]
      | exists (ReloadAction.postDisableMessage e);
        split; [| split; [| destruct (confirm _); reflexivity]] ];
    intuition congruence.
Qed.

(** ** Opening the workspace recommendations file *)

(** X14: the action that configures the workspace recommendations is
    enabled at construction exactly when a workspace folder is open.
    Without a folder, running it only shows a message.  With one, the file
    is read first; it is written, with the template, only when reading it
    failed; the editor is opened on it, pinned exactly when the file was
    just created; and when the write fails too the run is rejected with a
    message naming the failure and no editor is opened. *)
Theorem ConfigureWorkspaceRecommendedExtensionsAction_run_cases :
  forall (extensionsFile : string -> string) (template id label : string)
         (fileService : IFileService) (openEditor : Outcome unit)
         (workspace : option string),
    let ran :=
      ConfigureWorkspaceRecommendedExtensionsAction.run extensionsFile
        template fileService openEditor workspace in
    (enabled
       (ConfigureWorkspaceRecommendedExtensionsAction.new id label workspace)
     = true <-> exists folder, workspace = Some folder)
    /\ match workspace with
       | None =>
           ran
           = ([MessageInfo
                 "Recommendations are only available on a workspace folder."],
              Fulfilled tt)
       | Some folder =>
           let file := extensionsFile folder in
           match resolveContent fileService file,
                 updateContent fileService file template with
           | Fulfilled _, _ =>
               ran = ([ResolveContent file; OpenEditor file true false],
                      openEditor)
           | Rejected _, Fulfilled _ =>
               ran = ([ResolveContent file; UpdateContent file template;
                       OpenEditor file true true],
                      openEditor)
           | Rejected _, Rejected error =>
               ran = ([ResolveContent file; UpdateContent file template],
                      Rejected
                        (localize
                           "Unable to create 'extensions.json' file inside the '.vscode' folder ({0})."
                           error))
           end
       end.
Proof.
  intros extensionsFile template id label fileService openEditor workspace.
  cbv zeta; split.
  - destruct workspace as [folder|]; simpl.
    + split; [intros _; now exists folder | reflexivity].
    + split; [discriminate | intros [folder H]; discriminate H].
  - destruct workspace as [folder|]; [| reflexivity].
    unfold ConfigureWorkspaceRecommendedExtensionsAction.run,
      ConfigureWorkspaceRecommendedExtensionsAction.openExtensionsFile,
      ConfigureWorkspaceRecommendedExtensionsAction.getOrCreateExtensionsFile,
      then_, then_else, call, resolved, wrapError.
    destruct (resolveContent fileService (extensionsFile folder));
      destruct (updateContent fileService (extensionsFile folder) template);
      destruct openEditor; reflexivity.
Qed.

(** A folder that has no recommendations file yet gets one, and the editor
    opens it pinned; one that has it is left as it is. *)
Example ConfigureWorkspaceRecommendedExtensionsAction_run_samples :
  fst (ConfigureWorkspaceRecommendedExtensionsAction.run
         (fun folder => folder ++ "/.vscode/extensions.json") "{}"
         without_file (Fulfilled tt) (Some "/work"))
  = [ResolveContent "/work/.vscode/extensions.json";
     UpdateContent "/work/.vscode/extensions.json" "{}";
     OpenEditor "/work/.vscode/extensions.json" true true]
  /\ fst (ConfigureWorkspaceRecommendedExtensionsAction.run
            (fun folder => folder ++ "/.vscode/extensions.json") "{}"
            with_file (Fulfilled tt) (Some "/work"))
     = [ResolveContent "/work/.vscode/extensions.json";
        OpenEditor "/work/.vscode/extensions.json" true false].
Proof. split; reflexivity. Qed.

(** ** The sort action and the search box *)

(** X15: a sort action is disabled whenever the search box is empty.  One
    built with sort fields that are null or empty, which the constructor
    accepts, takes both fields from the parsed query and so stays disabled
    for every search text, provided a query rebuilt from its own parts
    equals itself. *)
Theorem ChangeSortAction_without_sort_fields_stays_disabled :
  forall (Query : Type) (Query_parse : string -> Query)
         (Query_new : string -> JsString -> JsString -> Query)
         (Query_value : Query -> string)
         (Query_sortBy Query_sortOrder : Query -> JsString)
         (Query_isValid : Query -> bool)
         (Query_equals : Query -> Query -> bool)
         (id label : string) (sortBy sortOrder : JsString)
         (this : ChangeSortAction.t Query),
    (forall q,
        Query_equals
          (Query_new (Query_value q) (Query_sortBy q) (Query_sortOrder q)) q
        = true) ->
    ChangeSortAction.new Query Query_parse id label sortBy sortOrder
    = ChangeSortAction.Built this ->
    let searched := fun value (a : ChangeSortAction.t Query) =>
      ChangeSortAction.onSearchChange Query Query_parse Query_new Query_value
        Query_sortBy Query_sortOrder Query_isValid Query_equals value a in
    (forall a, enabled (ChangeSortAction.base Query (searched "" a)) = false)
    /\ (truthy sortBy = false -> truthy sortOrder = false ->
        forall values : list string,
          enabled (ChangeSortAction.base Query
                     (fold_left (fun a value => searched value a) values this))
          = false).
Proof.
  intros Query Query_parse Query_new Query_value Query_sortBy Query_sortOrder
    Query_isValid Query_equals id label sortBy sortOrder this Law Hnew.
  cbv zeta; split; [reflexivity |].
  intros Tb To values.
  assert (B : ChangeSortAction.sortBy Query this = sortBy
              /\ ChangeSortAction.sortOrder Query this = sortOrder
              /\ enabled (ChangeSortAction.base Query this) = false).
  { unfold ChangeSortAction.new in Hnew.
    destruct sortBy, sortOrder; try discriminate Hnew;
      injection Hnew as <-; repeat split. }
  destruct B as (Sb & So & En); clear Hnew.
  revert this Sb So En.
  induction values as [|value values IH]; intros this Sb So En;
    [exact En |].
  cbn [fold_left]; apply IH.
  - exact Sb.
  - exact So.
  - simpl; unfold or_else; rewrite Sb, So, Tb, To, Law.
    now rewrite andb_false_r.
Qed.

(** A sort action built with a null field and an empty one, after two
    searches. *)
Lemma ChangeSortAction_without_sort_fields_sample :
  exists this,
    ChangeSortAction.new SampleQuery SampleQuery_parse "sort" "Sort" null
      (str "")
    = ChangeSortAction.Built this
    /\ enabled
         (ChangeSortAction.base SampleQuery
            (fold_left
               (fun a value =>
                  ChangeSortAction.onSearchChange SampleQuery
                    SampleQuery_parse SampleQuery_new
                    (fun q => fst (fst q)) (fun q => snd (fst q))
                    (fun q => snd q) (fun _ => true) SampleQuery_equals
                    value a)
               ["git"; "@sort:installs"] this))
       = false.
Proof.
  eexists; split; [reflexivity |].
  refine (proj2
            (ChangeSortAction_without_sort_fields_stays_disabled
               SampleQuery SampleQuery_parse SampleQuery_new
               (fun q => fst (fst q)) (fun q => snd (fst q))
               (fun q => snd q) (fun _ => true) SampleQuery_equals
               "sort" "Sort" null (str "") _ _ eq_refl)
            eq_refl eq_refl ["git"; "@sort:installs"]).
  intros [[value sortBy] sortOrder].
  unfold SampleQuery_equals, SampleQuery_new; simpl.
  rewrite String.eqb_refl.
  destruct sortBy, sortOrder; simpl; rewrite ?String.eqb_refl; reflexivity.
Defined.

(** ** Running an action with nothing bound *)

(** X16: with no extension bound, running the Uninstall action fails on
    reading the display name before the user is asked and before any call,
    and so does the combined action when its Uninstall child is the one to
    run; the Install, Update, Enable and Disable actions pass the missing
    extension on to the service. *)
Theorem run_with_nothing_bound :
  forall (confirm : string -> bool) (ia ua : Action),
    UninstallAction.run confirm None = ([], ThrowsTypeError)
    /\ (enabled ia = false -> enabled ua = true ->
        CombinedInstallAction.run confirm None ia ua = ([], ThrowsTypeError))
    /\ (enabled ia = true ->
        CombinedInstallAction.run confirm None ia ua
        = ([ServiceInstall None None],
           Returns (FromCall (ServiceInstall None None))))
    /\ fst (InstallAction.run None) = [ServiceInstall None None]
    /\ fst (UpdateAction.run None) = [ServiceInstall None None]
    /\ fst (EnableAction.run None) = [ServiceSetEnablement None true]
    /\ fst (DisableAction.run None) = [ServiceSetEnablement None false].
Proof.
  intros confirm ia ua.
  split; [reflexivity |].
  split.
  { intros Hi Hu; unfold CombinedInstallAction.run; now rewrite Hi, Hu. }
  split.
  { intros Hi; unfold CombinedInstallAction.run; now rewrite Hi. }
  repeat split.
Qed.
